(** * wired-datepicker-grid: the focus / selection state machine

    A shallow embedding of [packages/wired-datepicker/src/wired-datepicker-grid.ts]
    (class [WiredDatePickerGrid]) and the properties of its focus cursor.

    JavaScript numbers are modelled as [Z]: the grid works on integer day
    indices.  A method that only reads [this] is a function of the grid
    state; a setter or an event handler is a computation in the monad [M]
    below, which threads the state, records the observable effects
    (preventDefault, blur, focus, fired events, update requests) and can
    end in a [TypeError], as a method call on [undefined] does.  The
    listener registration of [firstUpdated] and [disconnectedCallback] is
    modelled on the component seen as an event target. *)

From Stdlib Require Import ZArith List Bool Lia String.
Import ListNotations.
Open Scope Z_scope.

(* ------------------------------------------------------------------ *)
(** ** Component state *)

(** The fields of [WiredDatePickerGrid].  The four underscore fields are the
    private ones behind the accessors; [dayCount] and [gridOffset] are plain
    reactive properties. *)
Record Grid := mkGrid {
  _selectedDayIndex : Z;
  _minEnabledIndex : Z;
  _maxEnabledIndex : Z;
  _focusIndex : Z;
  dayCount : Z;
  gridOffset : Z
}.

(** Field initialisers of the class (lines 92-105). *)
Definition init : Grid :=
  {| _selectedDayIndex := -1;
     _minEnabledIndex := 0;
     _maxEnabledIndex := 32;
     _focusIndex := 0;
     dayCount := 0;
     gridOffset := 0 |}.

(** Getters: they return the stored value as it is. *)
Definition selectedDayIndex (this : Grid) : Z := _selectedDayIndex this.
Definition minEnabledIndex (this : Grid) : Z := _minEnabledIndex this.
Definition maxEnabledIndex (this : Grid) : Z := _maxEnabledIndex this.

Definition with_selectedDayIndex (v : Z) (this : Grid) : Grid :=
  {| _selectedDayIndex := v;
     _minEnabledIndex := _minEnabledIndex this;
     _maxEnabledIndex := _maxEnabledIndex this;
     _focusIndex := _focusIndex this;
     dayCount := dayCount this;
     gridOffset := gridOffset this |}.

Definition with_minEnabledIndex (v : Z) (this : Grid) : Grid :=
  {| _selectedDayIndex := _selectedDayIndex this;
     _minEnabledIndex := v;
     _maxEnabledIndex := _maxEnabledIndex this;
     _focusIndex := _focusIndex this;
     dayCount := dayCount this;
     gridOffset := gridOffset this |}.

Definition with_maxEnabledIndex (v : Z) (this : Grid) : Grid :=
  {| _selectedDayIndex := _selectedDayIndex this;
     _minEnabledIndex := _minEnabledIndex this;
     _maxEnabledIndex := v;
     _focusIndex := _focusIndex this;
     dayCount := dayCount this;
     gridOffset := gridOffset this |}.

Definition with_focusIndex (v : Z) (this : Grid) : Grid :=
  {| _selectedDayIndex := _selectedDayIndex this;
     _minEnabledIndex := _minEnabledIndex this;
     _maxEnabledIndex := _maxEnabledIndex this;
     _focusIndex := v;
     dayCount := dayCount this;
     gridOffset := gridOffset this |}.

Definition with_dayCount (v : Z) (this : Grid) : Grid :=
  {| _selectedDayIndex := _selectedDayIndex this;
     _minEnabledIndex := _minEnabledIndex this;
     _maxEnabledIndex := _maxEnabledIndex this;
     _focusIndex := _focusIndex this;
     dayCount := v;
     gridOffset := gridOffset this |}.

Definition with_gridOffset (v : Z) (this : Grid) : Grid :=
  {| _selectedDayIndex := _selectedDayIndex this;
     _minEnabledIndex := _minEnabledIndex this;
     _maxEnabledIndex := _maxEnabledIndex this;
     _focusIndex := _focusIndex this;
     dayCount := dayCount this;
     gridOffset := v |}.

(* ------------------------------------------------------------------ *)
(** ** Effects and the method monad *)

(** What a method does besides changing the fields. [Blur i] and [Focus i]
    are [cells[i].blur()] and [cells[i].focus()] on the queried node list;
    [Fire name day] is [fire(this, name, { day })]. *)
Inductive effect : Type :=
| PreventDefault
| Blur (i : Z)
| Focus (i : Z)
| Fire (name : string) (day : Z)
| RequestUpdate (name : string) (oldValue : Z).

(** How a method ends: normally with a value, or with the [TypeError] that
    reading a property of [undefined] raises. *)
Inductive completion (A : Type) : Type :=
| Normal (a : A)
| TypeError.
Arguments Normal {A} a.
Arguments TypeError {A}.

Record outcome (A : Type) : Type := mkOutcome {
  result : completion A;
  final : Grid;
  trace : list effect
}.
Arguments mkOutcome {A} _ _ _.
Arguments result {A} _.
Arguments final {A} _.
Arguments trace {A} _.

Definition M (A : Type) : Type := Grid -> outcome A.

Definition ret {A : Type} (a : A) : M A :=
  fun this => mkOutcome (Normal a) this [].

Definition bind {A B : Type} (m : M A) (k : A -> M B) : M B :=
  fun this =>
    let r := m this in
    match result r with
    | Normal a =>
        let r' := k a (final r) in
        mkOutcome (result r') (final r') (trace r ++ trace r')
    | TypeError => mkOutcome TypeError (final r) (trace r)
    end.

Definition gets {A : Type} (f : Grid -> A) : M A :=
  fun this => mkOutcome (Normal (f this)) this [].

Definition modify (f : Grid -> Grid) : M unit :=
  fun this => mkOutcome (Normal tt) (f this) [].

Definition emit (e : effect) : M unit :=
  fun this => mkOutcome (Normal tt) this [e].

Definition throw {A : Type} : M A :=
  fun this => mkOutcome TypeError this [].

Definition when (b : bool) (m : M unit) : M unit :=
  if b then m else ret tt.

Declare Scope method_scope.
Delimit Scope method_scope with method.
Notation "x <- m ;; k" := (bind m (fun x => k))
  (at level 61, m at next level, right associativity) : method_scope.
Notation "m ;; k" := (bind m (fun _ => k))
  (at level 61, right associativity) : method_scope.
Open Scope method_scope.

(** [thrown r]: the method ended in a [TypeError]. *)
Definition thrown {A : Type} (r : outcome A) : bool :=
  match result r with
  | Normal _ => false
  | TypeError => true
  end.

(* ------------------------------------------------------------------ *)
(** ** Property setters (lines 55-88) *)

Definition set_selectedDayIndex (value : Z) : M unit :=
  oldValue <- gets _selectedDayIndex ;;
  modify (with_selectedDayIndex value) ;;
  modify (with_focusIndex value) ;;
  this <- gets (fun this => this) ;;
  when ((_focusIndex this <? minEnabledIndex this)
        || (_focusIndex this >? maxEnabledIndex this))
       (modify (with_focusIndex (minEnabledIndex this))) ;;
  emit (RequestUpdate "selectedDayIndex" oldValue).

Definition set_minEnabledIndex (value : Z) : M unit :=
  modify (with_minEnabledIndex value) ;;
  this <- gets (fun this => this) ;;
  modify (with_focusIndex (Z.max (_minEnabledIndex this) (_focusIndex this))).

Definition set_maxEnabledIndex (value : Z) : M unit :=
  modify (with_maxEnabledIndex value) ;;
  this <- gets (fun this => this) ;;
  when (_focusIndex this >=? _maxEnabledIndex this)
       (modify (with_focusIndex (_minEnabledIndex this))).

(* ------------------------------------------------------------------ *)
(** ** Rendering (lines 15-26 and 128-149) *)

(** The callbacks a cell template can carry: the only one the grid ever
    passes is [this.onCellSelected.bind(this)]. *)
Inductive callback : Type :=
| onCellSelected_bound.

(** A [wired-datepicker-cell] as the [Cell] template describes it;
    [handleSelect = None] is the [undefined] of an omitted argument. *)
Record CellTemplate := mkCell {
  index : Z;
  selected : bool;
  disabled : bool;
  text : Z;
  handleSelect : option callback
}.

Definition Cell (index : Z) (selected disabled : bool)
    (handleSelect : option callback) : CellTemplate :=
  mkCell index selected disabled (index + 1) handleSelect.

(** [fire(this, 'cell-selected', { day: cellIndex+1 })] *)
Definition onCellSelected (cellIndex : Z) : M unit :=
  emit (Fire "cell-selected" (cellIndex + 1)).

Definition invoke (cb : callback) (arg : Z) : M unit :=
  match cb with
  | onCellSelected_bound => onCellSelected arg
  end.

(** The click listener of a cell: [() => handleSelect && handleSelect(index)]. *)
Definition click (c : CellTemplate) : M unit :=
  match handleSelect c with
  | Some cb => invoke cb (index c)
  | None => ret tt
  end.

(** [[...Array(n).keys()]] for a valid array length [n]. *)
Definition keys (n : Z) : list Z := map Z.of_nat (seq 0 (Z.to_nat n)).

(** [cells[i] = x] on a JavaScript array: an index past the end extends
    the array, and the slots in between are holes ([None]). *)
Fixpoint array_set {A : Type} (cells : list (option A)) (i : nat) (x : A)
    : list (option A) :=
  match i, cells with
  | O, [] => [Some x]
  | O, _ :: rest => Some x :: rest
  | S i', [] => None :: array_set [] i' x
  | S i', c :: rest => c :: array_set rest i' x
  end.

Definition isCellEnabled (this : Grid) (i : Z) : bool :=
  (i <? maxEnabledIndex this) && (i >=? minEnabledIndex this).

(** What [render] returns: the offset style and the grid's children. *)
Record TemplateResult := mkTemplate {
  additionnalStyle : Z;
  grid : list (option CellTemplate)
}.

(** [render]. [Array(dayCount)] raises a RangeError on a negative length:
    that is the [None] result.  Lengths and indices from 2^32 on, where
    JavaScript arrays end, are not modelled: a statement that depends on
    them carries the bound as a hypothesis. *)
Definition render (this : Grid) : option TemplateResult :=
  if dayCount this <? 0 then None
  else
    let cells :=
      map (fun i =>
             let enabled := isCellEnabled this i in
             let onSelectCell :=
               if enabled then Some onCellSelected_bound else None in
             Some (Cell i false (negb enabled) onSelectCell))
          (keys (dayCount this)) in
    let cells :=
      if selectedDayIndex this >=? 0 then
        let enabled := isCellEnabled this (selectedDayIndex this) in
        array_set cells (Z.to_nat (selectedDayIndex this))
                  (Cell (selectedDayIndex this) true (negb enabled) None)
      else cells in
    Some (mkTemplate (gridOffset this) cells).

(** [querySelectorAll('wired-datepicker-cell')] on the rendered grid: the
    cell elements in document order; a hole renders nothing. *)
Definition querySelectorAll (t : TemplateResult) : list CellTemplate :=
  flat_map (fun c => match c with Some x => [x] | None => [] end) (grid t).

(* ------------------------------------------------------------------ *)
(** ** Keyboard navigation (lines 168-266) *)

Definition NodeList : Type := list CellTemplate.

(** [cells.length] *)
Definition length_of (cells : NodeList) : Z := Z.of_nat (List.length cells).

(** [cells[i]]: [undefined] unless [i] is an index of the list. *)
Definition item (cells : NodeList) (i : Z) : option CellTemplate :=
  if i <? 0 then None else nth_error cells (Z.to_nat i).

(** [cells[i].blur()] and [cells[i].focus()]: a TypeError on [undefined]. *)
Definition blur_at (cells : NodeList) (i : Z) : M unit :=
  match item cells i with
  | Some _ => emit (Blur i)
  | None => throw
  end.

Definition focus_at (cells : NodeList) (i : Z) : M unit :=
  match item cells i with
  | Some _ => emit (Focus i)
  | None => throw
  end.

Definition jumpForward (this : Grid) (step gridLength : Z) : Z :=
  if _focusIndex this + step <? Z.min gridLength (maxEnabledIndex this)
  then _focusIndex this + step
  else _focusIndex this.

Definition jumpBackward (this : Grid) (step : Z) : Z :=
  if _focusIndex this - step >=? Z.max 0 (minEnabledIndex this)
  then _focusIndex this - step
  else _focusIndex this.

Definition VK_ENTER : Z := 13.
Definition VK_SPACE : Z := 32.
Definition VK_END : Z := 35.
Definition VK_HOME : Z := 36.
Definition VK_LEFT : Z := 37.
Definition VK_RIGHT : Z := 39.
Definition VK_UP : Z := 38.
Definition VK_DOWN : Z := 40.

(** The [switch] of [handleKeyboardNavigation]: the value [newFocusIndex]
    holds after it. *)
Definition dispatch (cells : NodeList) (keyCode : Z) : M Z :=
  this <- gets (fun this => this) ;;
  if keyCode =? VK_LEFT then
    emit PreventDefault ;; ret (jumpBackward this 1)
  else if keyCode =? VK_RIGHT then
    emit PreventDefault ;; ret (jumpForward this 1 (length_of cells))
  else if keyCode =? VK_DOWN then
    emit PreventDefault ;; ret (jumpForward this 7 (length_of cells))
  else if keyCode =? VK_UP then
    emit PreventDefault ;; ret (jumpBackward this 7)
  else if keyCode =? VK_END then
    emit PreventDefault ;;
    ret (Z.min (length_of cells) (maxEnabledIndex this) - 1)
  else if keyCode =? VK_HOME then
    emit PreventDefault ;; ret (Z.max 0 (minEnabledIndex this))
  else if (keyCode =? VK_SPACE) || (keyCode =? VK_ENTER) then
    emit PreventDefault ;;
    onCellSelected (_focusIndex this) ;;
    ret (_focusIndex this)
  else ret (_focusIndex this).

(** [handleKeyboardNavigation(e)]. [cells] is the value of
    [this.shadowRoot?.querySelectorAll(...)]: [None] is [undefined]. *)
Definition handleKeyboardNavigation (cells : option NodeList) (keyCode : Z)
    : M unit :=
  match cells with
  | None => ret tt
  | Some cells =>
      newFocusIndex <- dispatch cells keyCode ;;
      old <- gets _focusIndex ;;
      when (negb (newFocusIndex =? old))
           (blur_at cells old ;;
            modify (with_focusIndex newFocusIndex) ;;
            new <- gets _focusIndex ;;
            focus_at cells new)
  end.

(** [forwardFocusToCell()] *)
Definition forwardFocusToCell (cells : option NodeList) : M unit :=
  match cells with
  | None => ret tt
  | Some cells =>
      this <- gets (fun this => this) ;;
      when (_focusIndex this <? maxEnabledIndex this)
           (focus_at cells (_focusIndex this))
  end.

(* ------------------------------------------------------------------ *)
(** ** The component as a reactive system *)

(** What the owner and the browser can do to the component. *)
Inductive input : Type :=
| SetSelectedDayIndex (v : Z)
| SetMinEnabledIndex (v : Z)
| SetMaxEnabledIndex (v : Z)
| SetDayCount (v : Z)
| SetGridOffset (v : Z)
| KeyDown (cells : option NodeList) (keyCode : Z)
| FocusIn (cells : option NodeList)
| ClickCell (c : CellTemplate).

Definition react (i : input) : M unit :=
  match i with
  | SetSelectedDayIndex v => set_selectedDayIndex v
  | SetMinEnabledIndex v => set_minEnabledIndex v
  | SetMaxEnabledIndex v => set_maxEnabledIndex v
  | SetDayCount v => modify (with_dayCount v)
  | SetGridOffset v => modify (with_gridOffset v)
  | KeyDown cells keyCode => handleKeyboardNavigation cells keyCode
  | FocusIn cells => forwardFocusToCell cells
  | ClickCell c => click c
  end.

Definition exec (this : Grid) (i : input) : Grid := final (react i this).

Definition run (inputs : list input) : Grid := fold_left exec inputs init.

(** A state the component can be in: the initial one after some inputs. *)
Definition reachable (this : Grid) : Prop := exists inputs, this = run inputs.

(** The cells the handlers see once the component has rendered [this]. *)
Definition rendered_cells (this : Grid) : option NodeList :=
  option_map querySelectorAll (render this).

(** The enabled range [[minEnabledIndex, maxEnabledIndex)]. *)
Definition in_enabled_range (this : Grid) (i : Z) : Prop :=
  minEnabledIndex this <= i < maxEnabledIndex this.

(** The value the [switch] leaves in [newFocusIndex]. *)
Definition newFocusIndex (cells : NodeList) (keyCode : Z) (this : Grid) : Z :=
  match result (dispatch cells keyCode this) with
  | Normal n => n
  | TypeError => _focusIndex this
  end.

(** Readings of a trace. *)
Definition is_cell_focus_change (e : effect) : bool :=
  match e with
  | Blur _ | Focus _ => true
  | _ => false
  end.

Definition is_fire (e : effect) : bool :=
  match e with
  | Fire _ _ => true
  | _ => false
  end.

Definition is_activation (keyCode : Z) : bool :=
  (keyCode =? VK_SPACE) || (keyCode =? VK_ENTER).

(* ------------------------------------------------------------------ *)
(** ** Event listeners (lines 154-162) *)

(** The two methods the component registers as listeners. *)
Inductive method : Type :=
| forwardFocusToCell_method
| handleKeyboardNavigation_method.

(** The function object [this.m.bind(this)]: every call of [bind] returns
    a new object, told apart from all others by its identity. *)
Record BoundFunction := mkBound {
  target : method;
  identity : nat
}.

(** The component as an event target: its listener list, in registration
    order, and the number of function objects created so far. *)
Record EventTarget := mkTarget {
  listeners : list (string * BoundFunction);
  allocated : nat
}.

(** [this.m.bind(this)] *)
Definition bind_this (m : method) (e : EventTarget)
    : BoundFunction * EventTarget :=
  (mkBound m (allocated e), mkTarget (listeners e) (S (allocated e))).

(** Two registrations are the same one when the event type is the same and
    the callback is the same object. *)
Definition same_listener (a b : string * BoundFunction) : bool :=
  String.eqb (fst a) (fst b) && Nat.eqb (identity (snd a)) (identity (snd b)).

(** [addEventListener(type, f)]: appended unless already registered. *)
Definition addEventListener (type : string) (f : BoundFunction)
    (e : EventTarget) : EventTarget :=
  if existsb (same_listener (type, f)) (listeners e) then e
  else mkTarget (listeners e ++ [(type, f)]) (allocated e).

(** [removeEventListener(type, f)]: the matching registration, if any, is
    dropped. *)
Definition removeEventListener (type : string) (f : BoundFunction)
    (e : EventTarget) : EventTarget :=
  mkTarget (filter (fun l => negb (same_listener (type, f) l)) (listeners e))
           (allocated e).

Definition firstUpdated (e : EventTarget) : EventTarget :=
  let (f, e) := bind_this forwardFocusToCell_method e in
  let e := addEventListener "focus" f e in
  let (g, e) := bind_this handleKeyboardNavigation_method e in
  addEventListener "keydown" g e.

Definition disconnectedCallback (e : EventTarget) : EventTarget :=
  let (f, e) := bind_this forwardFocusToCell_method e in
  let e := removeEventListener "focus" f e in
  let (g, e) := bind_this handleKeyboardNavigation_method e in
  removeEventListener "keydown" g e.

(** The methods an event of the given type is delivered to, in order. *)
Definition delivered (type : string) (e : EventTarget) : list method :=
  map (fun l => target (snd l))
      (filter (fun l => String.eqb type (fst l)) (listeners e)).

(** Every registered function object was created by an earlier [bind]. *)
Definition well_formed (e : EventTarget) : Prop :=
  Forall (fun l => (identity (snd l) < allocated e)%nat) (listeners e).

(** An End keydown, whatever the cells. *)
Definition is_End_keydown (i : input) : bool :=
  match i with
  | KeyDown _ keyCode => keyCode =? VK_END
  | _ => false
  end.

(* ------------------------------------------------------------------ *)
(** * Properties *)

(** ** The setters *)

Section Setters.

Variable this : Grid.

(** The [selectedDayIndex] setter keeps the focus on [value] exactly when
    [value] lies in the closed interval between the two bounds. *)
Lemma set_selectedDayIndex_final (value : Z) :
  final (set_selectedDayIndex value this) =
  with_focusIndex
    (if (value <? minEnabledIndex this) || (value >? maxEnabledIndex this)
     then minEnabledIndex this else value)
    (with_selectedDayIndex value this).
Proof.
  unfold set_selectedDayIndex, bind, gets, modify, when, emit; cbn.
  destruct ((value <? _) || (value >? _)); reflexivity.
Qed.

Lemma set_selectedDayIndex_normal (value : Z) :
  result (set_selectedDayIndex value this) = Normal tt.
Proof.
  unfold set_selectedDayIndex, bind, gets, modify, when, emit; cbn.
  destruct ((value <? _) || (value >? _)); reflexivity.
Qed.

Lemma set_minEnabledIndex_final (value : Z) :
  final (set_minEnabledIndex value this) =
  with_focusIndex (Z.max value (_focusIndex this))
                  (with_minEnabledIndex value this).
Proof. reflexivity. Qed.

Lemma set_maxEnabledIndex_final (value : Z) :
  final (set_maxEnabledIndex value this) =
  if _focusIndex this >=? value
  then with_focusIndex (_minEnabledIndex this)
                       (with_maxEnabledIndex value this)
  else with_maxEnabledIndex value this.
Proof.
  unfold set_maxEnabledIndex, bind, gets, modify, when; cbn.
  destruct (_focusIndex this >=? value); reflexivity.
Qed.

End Setters.

Lemma reachable_run (inputs : list input) : reachable (run inputs).
Proof. exists inputs; reflexivity. Qed.

Lemma reachable_exec (this : Grid) (i : input) :
  reachable this -> reachable (exec this i).
Proof.
  intros [inputs ->]. exists (inputs ++ [i]).
  unfold run. rewrite fold_left_app. reflexivity.
Qed.

(** C1, at the input where the code departs from it: from the initial state
    (bounds 0 and 32), setting [selectedDayIndex] to 32 stores 32 and leaves
    the focus on 32, although 32 is outside the half-open range [0, 32) and
    the claim asks for a reset to [minEnabledIndex] = 0. *)
Theorem selectedDayIndex_setter_keeps_focus_at_max :
  let this' := final (set_selectedDayIndex 32 init) in
  ~ in_enabled_range init 32 /\
  _selectedDayIndex this' = 32 /\
  _focusIndex this' = 32 /\
  minEnabledIndex this' = 0 /\
  _focusIndex this' <> minEnabledIndex this'.
Proof.
  cbv zeta. rewrite set_selectedDayIndex_final.
  unfold in_enabled_range; cbn.
  repeat split; try lia; discriminate.
Qed.

(** The setter as the code has it: the focus follows [value] on the closed
    interval [[minEnabledIndex, maxEnabledIndex]] and is reset to
    [minEnabledIndex] outside of it. *)
Theorem selectedDayIndex_setter_closed_interval (this : Grid) (value : Z) :
  let this' := final (set_selectedDayIndex value this) in
  _selectedDayIndex this' = value /\
  minEnabledIndex this' = minEnabledIndex this /\
  maxEnabledIndex this' = maxEnabledIndex this /\
  _focusIndex this' =
    (if (minEnabledIndex this <=? value) && (value <=? maxEnabledIndex this)
     then value else minEnabledIndex this).
Proof.
  cbv zeta. rewrite set_selectedDayIndex_final. cbn.
  repeat split.
  destruct (Z.ltb_spec value (minEnabledIndex this));
    destruct (Z.leb_spec (minEnabledIndex this) value); try lia; cbn;
    [ reflexivity | ].
  unfold Z.gtb.
  destruct (Z.compare_spec value (maxEnabledIndex this));
    destruct (Z.leb_spec value (maxEnabledIndex this)); try lia; reflexivity.
Qed.

(** C4: a reachable state and one bounds-setter call that leave the focus
    outside the enabled range.  After [minEnabledIndex = 3] the focus is 3;
    the [maxEnabledIndex] setter called with 3 keeps it at 3, outside the
    now-empty range [3, 3).  The same holds from every state whose
    [minEnabledIndex] and focus are both 3. *)
Theorem maxEnabledIndex_setter_leaves_focus_outside_range :
  (let this := run [SetMinEnabledIndex 3] in
   let this' := exec this (SetMaxEnabledIndex 3) in
   reachable this /\
   minEnabledIndex this = 3 /\ _focusIndex this = 3 /\
   _focusIndex this' = 3 /\
   minEnabledIndex this' = 3 /\ maxEnabledIndex this' = 3 /\
   ~ in_enabled_range this' (_focusIndex this')) /\
  (forall sel mx dc off : Z,
     let this := mkGrid sel 3 mx 3 dc off in
     let this' := final (set_maxEnabledIndex 3 this) in
     _focusIndex this' = 3 /\ ~ in_enabled_range this' (_focusIndex this')).
Proof.
  split.
  - cbv zeta. split; [ apply reachable_run | ].
    unfold in_enabled_range; cbn. repeat split; lia.
  - intros sel mx dc off; cbv zeta.
    rewrite set_maxEnabledIndex_final; cbn.
    unfold in_enabled_range; cbn. split; [ reflexivity | lia ].
Qed.

(* ------------------------------------------------------------------ *)
(** ** The jumps *)

Ltac by_cases_on_jump :=
  unfold jumpBackward, jumpForward;
  repeat match goal with
         | |- context [?a <? ?b] => destruct (Z.ltb_spec a b)
         | |- context [?a >=? ?b] =>
             rewrite (Z.geb_leb a b); destruct (Z.leb_spec b a)
         end.

Section Jumps.

Variable this : Grid.

Lemma jumpBackward_taken (step : Z) :
  Z.max 0 (minEnabledIndex this) <= _focusIndex this - step ->
  jumpBackward this step = _focusIndex this - step.
Proof. by_cases_on_jump; lia. Qed.

Lemma jumpBackward_refused (step : Z) :
  _focusIndex this - step < Z.max 0 (minEnabledIndex this) ->
  jumpBackward this step = _focusIndex this.
Proof. by_cases_on_jump; lia. Qed.

Lemma jumpForward_taken (step gridLength : Z) :
  _focusIndex this + step < Z.min gridLength (maxEnabledIndex this) ->
  jumpForward this step gridLength = _focusIndex this + step.
Proof. by_cases_on_jump; lia. Qed.

Lemma jumpForward_refused (step gridLength : Z) :
  Z.min gridLength (maxEnabledIndex this) <= _focusIndex this + step ->
  jumpForward this step gridLength = _focusIndex this.
Proof. by_cases_on_jump; lia. Qed.

(** A jump never leaves the interval between 0 and the old focus
    (backward), or between the old focus and the grid length (forward). *)
Lemma jumpBackward_bounds (step : Z) :
  0 <= step -> 0 <= _focusIndex this ->
  0 <= jumpBackward this step <= _focusIndex this.
Proof. by_cases_on_jump; lia. Qed.

Lemma jumpForward_bounds (step gridLength : Z) :
  0 <= step -> _focusIndex this < gridLength ->
  _focusIndex this <= jumpForward this step gridLength < gridLength.
Proof. by_cases_on_jump; lia. Qed.

End Jumps.

(** C6: [jumpBackward step] returns [focusIndex - step] when
    [focusIndex - step >= max(0, minEnabledIndex)], and otherwise returns
    [focusIndex] unchanged, for every step, focus and bounds.  For every
    step other than 0, so for the steps 1 and 7 the key router passes, it
    returns [focusIndex - step] if and only if the condition holds. *)
Theorem jumpBackward_spec (this : Grid) (step : Z) :
  (_focusIndex this - step >= Z.max 0 (minEnabledIndex this) ->
   jumpBackward this step = _focusIndex this - step) /\
  (~ _focusIndex this - step >= Z.max 0 (minEnabledIndex this) ->
   jumpBackward this step = _focusIndex this) /\
  (step <> 0 ->
   (jumpBackward this step = _focusIndex this - step <->
    _focusIndex this - step >= Z.max 0 (minEnabledIndex this))).
Proof.
  split; [ | split ].
  - intros H. apply jumpBackward_taken. lia.
  - intros H. apply jumpBackward_refused. lia.
  - intros Hstep. by_cases_on_jump; split; intros; lia.
Qed.

(** C6 at the step of the Up key, from focus 10 with the default bounds. *)
Lemma jumpBackward_spec_witness :
  let this := run [SetSelectedDayIndex 10] in
  jumpBackward this 7 = 3 /\
  (jumpBackward this 7 = _focusIndex this - 7 <->
   _focusIndex this - 7 >= Z.max 0 (minEnabledIndex this)).
Proof.
  cbv zeta. split; [ reflexivity | ].
  apply (jumpBackward_spec (run [SetSelectedDayIndex 10]) 7). discriminate.
Defined.

(** C7: [jumpForward step cellCount] returns [focusIndex + step] when
    [focusIndex + step < min(cellCount, maxEnabledIndex)], and otherwise
    returns [focusIndex] unchanged, for every step, focus, bound and cell
    count.  For every step other than 0, so for the steps 1 and 7 the key
    router passes, it returns [focusIndex + step] if and only if the
    condition holds. *)
Theorem jumpForward_spec (this : Grid) (step cellCount : Z) :
  (_focusIndex this + step < Z.min cellCount (maxEnabledIndex this) ->
   jumpForward this step cellCount = _focusIndex this + step) /\
  (~ _focusIndex this + step < Z.min cellCount (maxEnabledIndex this) ->
   jumpForward this step cellCount = _focusIndex this) /\
  (step <> 0 ->
   (jumpForward this step cellCount = _focusIndex this + step <->
    _focusIndex this + step < Z.min cellCount (maxEnabledIndex this))).
Proof.
  split; [ | split ].
  - intros H. apply jumpForward_taken. lia.
  - intros H. apply jumpForward_refused. lia.
  - intros Hstep. by_cases_on_jump; split; intros; lia.
Qed.

(** C7 at the step of the Down key, from focus 10 with
    [maxEnabledIndex = 12] on a grid of 31 cells. *)
Lemma jumpForward_spec_witness :
  let this := run [SetSelectedDayIndex 10; SetMaxEnabledIndex 12] in
  jumpForward this 7 31 = 10 /\
  (jumpForward this 7 31 = _focusIndex this + 7 <->
   _focusIndex this + 7 < Z.min 31 (maxEnabledIndex this)).
Proof.
  cbv zeta. split; [ reflexivity | ].
  apply (jumpForward_spec
           (run [SetSelectedDayIndex 10; SetMaxEnabledIndex 12]) 7 31).
  discriminate.
Defined.

(** C2 as stated fails: an empty range does not stop the arrows.  Setting
    [minEnabledIndex] to 10, [maxEnabledIndex] to 3 and [minEnabledIndex]
    to 5 reaches the state min = 5, max = 3, focus = 10, where Left moves
    the cursor to 9. *)
Lemma arrows_move_in_empty_range :
  let this :=
    run [SetMinEnabledIndex 10; SetMaxEnabledIndex 3; SetMinEnabledIndex 5] in
  reachable this /\
  maxEnabledIndex this <= minEnabledIndex this /\
  _focusIndex this = 10 /\
  jumpBackward this 1 = 9 /\
  jumpBackward this 1 <> _focusIndex this.
Proof.
  cbv zeta. split; [ apply reachable_run | ].
  cbn. repeat split; try lia; discriminate.
Qed.

(** C2, amended: with an empty enabled range, the four arrow transitions
    all leave the focus where it is exactly when
    [min(cellCount, maxEnabledIndex) - 1 <= focusIndex <= max(0, minEnabledIndex)]. *)
Theorem arrows_noop_in_empty_range (this : Grid) (cellCount : Z) :
  maxEnabledIndex this <= minEnabledIndex this ->
  (jumpBackward this 1 = _focusIndex this /\
   jumpBackward this 7 = _focusIndex this /\
   jumpForward this 1 cellCount = _focusIndex this /\
   jumpForward this 7 cellCount = _focusIndex this)
  <->
  Z.min cellCount (maxEnabledIndex this) - 1 <= _focusIndex this
    <= Z.max 0 (minEnabledIndex this).
Proof.
  intros Hempty. split.
  - intros [HL [_ [HR _]]]. revert HL HR. by_cases_on_jump; lia.
  - intros Hfocus.
    repeat split;
      first [ apply jumpBackward_refused | apply jumpForward_refused ]; lia.
Qed.

(** The amended C2 in the state the bounds 3 and 3 lead to (focus 3), on a
    grid of 31 cells. *)
Lemma arrows_noop_in_empty_range_witness :
  let this := run [SetMinEnabledIndex 3; SetMaxEnabledIndex 3] in
  (maxEnabledIndex this <= minEnabledIndex this /\ _focusIndex this = 3) /\
  jumpBackward this 1 = _focusIndex this /\
  jumpBackward this 7 = _focusIndex this /\
  jumpForward this 1 31 = _focusIndex this /\
  jumpForward this 7 31 = _focusIndex this.
Proof.
  cbv zeta. split.
  - cbn. split; [ lia | reflexivity ].
  - apply (arrows_noop_in_empty_range
             (run [SetMinEnabledIndex 3; SetMaxEnabledIndex 3]) 31);
      cbn; lia.
Defined.

(** With an empty range the interval above is never empty: it holds
    [minEnabledIndex], where the setters leave the focus. *)
Lemma arrows_noop_at_minEnabledIndex (this : Grid) (cellCount : Z) :
  maxEnabledIndex this <= minEnabledIndex this ->
  _focusIndex this = minEnabledIndex this ->
  jumpBackward this 1 = _focusIndex this /\
  jumpBackward this 7 = _focusIndex this /\
  jumpForward this 1 cellCount = _focusIndex this /\
  jumpForward this 7 cellCount = _focusIndex this.
Proof.
  intros Hempty Hfocus.
  repeat split;
    first [ apply jumpBackward_refused | apply jumpForward_refused ]; lia.
Qed.

(* ------------------------------------------------------------------ *)
(** ** The key router *)

Ltac by_cases_on_key keyCode :=
  destruct (keyCode =? VK_LEFT) eqn:?;
  [ | destruct (keyCode =? VK_RIGHT) eqn:?;
  [ | destruct (keyCode =? VK_DOWN) eqn:?;
  [ | destruct (keyCode =? VK_UP) eqn:?;
  [ | destruct (keyCode =? VK_END) eqn:?;
  [ | destruct (keyCode =? VK_HOME) eqn:?;
  [ | destruct (keyCode =? VK_SPACE) eqn:?;
  [ | destruct (keyCode =? VK_ENTER) eqn:? ]]]]]]].

Section KeyRouter.

Variable cells : NodeList.
Variable this : Grid.

(** The [switch] changes no field and cannot throw. *)
Lemma dispatch_final (keyCode : Z) :
  final (dispatch cells keyCode this) = this.
Proof.
  unfold dispatch, bind, gets; cbn.
  by_cases_on_key keyCode; reflexivity.
Qed.

Lemma dispatch_result (keyCode : Z) :
  result (dispatch cells keyCode this) =
  Normal (newFocusIndex cells keyCode this).
Proof.
  unfold newFocusIndex, dispatch, bind, gets; cbn.
  by_cases_on_key keyCode; reflexivity.
Qed.

(** What the [switch] does besides computing the new index. *)
Lemma dispatch_trace (keyCode : Z) :
  trace (dispatch cells keyCode this) =
  if is_activation keyCode
  then [PreventDefault; Fire "cell-selected" (_focusIndex this + 1)]
  else if existsb (Z.eqb keyCode)
            [VK_LEFT; VK_RIGHT; VK_DOWN; VK_UP; VK_END; VK_HOME]
       then [PreventDefault]
       else [].
Proof.
  unfold is_activation, dispatch, bind, gets; cbn.
  by_cases_on_key keyCode; cbn;
    repeat match goal with
           | H : (keyCode =? _) = true |- _ =>
               apply Z.eqb_eq in H; subst keyCode
           end; reflexivity.
Qed.

(** The handler, unfolded: nothing happens to the focus when the index
    is unchanged; otherwise the old cell is looked up and blurred, the
    field is written, and the new cell is looked up and focused. *)
Lemma handleKeyboardNavigation_unfold (keyCode : Z) :
  let new := newFocusIndex cells keyCode this in
  let old := _focusIndex this in
  let tr := trace (dispatch cells keyCode this) in
  handleKeyboardNavigation (Some cells) keyCode this =
  if new =? old then mkOutcome (Normal tt) this tr
  else match item cells old with
       | None => mkOutcome TypeError this tr
       | Some _ =>
           match item cells new with
           | None =>
               mkOutcome TypeError (with_focusIndex new this)
                         (tr ++ [Blur old])
           | Some _ =>
               mkOutcome (Normal tt) (with_focusIndex new this)
                         (tr ++ [Blur old; Focus new])
           end
       end.
Proof.
  cbv zeta. unfold handleKeyboardNavigation.
  unfold bind at 1.
  rewrite dispatch_result, dispatch_final.
  set (new := newFocusIndex cells keyCode this).
  set (tr := trace (dispatch cells keyCode this)).
  unfold bind, gets, when, blur_at, focus_at, modify, emit, throw, ret; cbn.
  destruct (new =? _focusIndex this); cbn.
  - rewrite app_nil_r. reflexivity.
  - destruct (item cells (_focusIndex this)); cbn; [ | rewrite app_nil_r; reflexivity ].
    destruct (item cells new); cbn; reflexivity.
Qed.

End KeyRouter.

Section NodeLists.

Variable cells : NodeList.

Lemma item_in_range (i : Z) :
  0 <= i < length_of cells -> exists c, item cells i = Some c.
Proof.
  unfold item, length_of; intros Hi.
  destruct (Z.ltb_spec i 0); [ lia | ].
  destruct (nth_error cells (Z.to_nat i)) as [c|] eqn:E; [ eauto | ].
  apply nth_error_None in E. lia.
Qed.

Lemma item_out_of_range (i : Z) :
  i < 0 \/ length_of cells <= i -> item cells i = None.
Proof.
  unfold item, length_of; intros Hi.
  destruct (Z.ltb_spec i 0); [ reflexivity | ].
  apply nth_error_None. lia.
Qed.

End NodeLists.

Lemma newFocusIndex_activation (cells : NodeList) (keyCode : Z) (this : Grid) :
  is_activation keyCode = true ->
  newFocusIndex cells keyCode this = _focusIndex this.
Proof.
  unfold is_activation, newFocusIndex, dispatch, bind, gets; cbn.
  intros H. apply orb_true_iff in H.
  destruct H as [H|H]; apply Z.eqb_eq in H; subst keyCode; reflexivity.
Qed.

Lemma newFocusIndex_home (cells : NodeList) (this : Grid) :
  newFocusIndex cells VK_HOME this = Z.max 0 (minEnabledIndex this).
Proof. reflexivity. Qed.

Lemma newFocusIndex_end (cells : NodeList) (this : Grid) :
  newFocusIndex cells VK_END this
    = Z.min (length_of cells) (maxEnabledIndex this) - 1.
Proof. reflexivity. Qed.

(** C9: on Space and on Enter the handler completes normally, its effects
    are the [preventDefault] and exactly one [cell-selected] event with
    [day = focusIndex + 1], and the state, [focusIndex] included, is
    unchanged.  [cells] is any rendered cell list. *)
Theorem activation_fires_cell_selected (this : Grid) (cells : NodeList) :
  let fired := [PreventDefault; Fire "cell-selected" (_focusIndex this + 1)] in
  handleKeyboardNavigation (Some cells) VK_SPACE this
    = mkOutcome (Normal tt) this fired /\
  handleKeyboardNavigation (Some cells) VK_ENTER this
    = mkOutcome (Normal tt) this fired /\
  List.length (filter is_fire fired) = 1%nat.
Proof.
  cbv zeta. repeat split;
    rewrite handleKeyboardNavigation_unfold; cbv zeta;
    rewrite newFocusIndex_activation by reflexivity;
    rewrite Z.eqb_refl; reflexivity.
Qed.

(** With [dayCount = 0] and no selected day, nothing is rendered: the
    node list is empty, not undefined. *)
Lemma rendered_cells_empty (this : Grid) :
  dayCount this = 0 -> selectedDayIndex this < 0 ->
  rendered_cells this = Some [].
Proof.
  intros Hdays Hsel. unfold rendered_cells, render. rewrite Hdays; cbn.
  rewrite Z.geb_leb.
  destruct (Z.leb_spec 0 (selectedDayIndex this)); [ lia | reflexivity ].
Qed.

(** C5 as stated fails: with no cell rendered ([dayCount = 0], an empty
    node list) Enter still fires [cell-selected], here with [day = 1]. *)
Lemma enter_fires_without_cells :
  dayCount init = 0 /\
  rendered_cells init = Some [] /\
  handleKeyboardNavigation (rendered_cells init) VK_ENTER init
    = mkOutcome (Normal tt) init [PreventDefault; Fire "cell-selected" 1].
Proof. repeat split. Qed.

(** C5, amended: with an undefined cell collection every keydown is a
    no-op.  With an empty cell collection a keydown never changes the state
    and never blurs or focuses a cell; Space and Enter still complete
    normally and fire [cell-selected] with [day = focusIndex + 1], and no
    other key fires an event. *)
Theorem keydown_without_cells (this : Grid) (keyCode : Z) :
  handleKeyboardNavigation None keyCode this = mkOutcome (Normal tt) this [] /\
  (let r := handleKeyboardNavigation (Some []) keyCode this in
   final r = this /\
   existsb is_cell_focus_change (trace r) = false /\
   if is_activation keyCode
   then result r = Normal tt /\
        trace r = [PreventDefault; Fire "cell-selected" (_focusIndex this + 1)]
   else existsb is_fire (trace r) = false).
Proof.
  split; [ reflexivity | cbv zeta ].
  rewrite handleKeyboardNavigation_unfold; cbv zeta.
  rewrite (item_out_of_range [] (_focusIndex this))
    by (unfold length_of; cbn; lia).
  rewrite dispatch_trace.
  destruct (is_activation keyCode) eqn:Hact.
  - rewrite newFocusIndex_activation, Z.eqb_refl by assumption.
    repeat split.
  - destruct (existsb _ _);
      destruct (newFocusIndex [] keyCode this =? _focusIndex this);
      repeat split.
Qed.

(** C3, at inputs where the code departs from it.  In the initial state
    with no cell rendered, End computes the index -1 and calls [blur] on
    the missing [cells[0]]: a TypeError.  With 28 days rendered and
    [selectedDayIndex = 30] the focus is 30 while the node list has 29
    cells: Home throws on [cells[30].blur()] and the focus handler throws
    on [cells[30].focus()]. *)
Theorem handlers_reach_missing_cell :
  thrown (handleKeyboardNavigation (Some []) VK_END init) = true /\
  (let this := run [SetDayCount 28; SetSelectedDayIndex 30] in
   let cells := rendered_cells this in
   option_map length_of cells = Some 29 /\
   _focusIndex this = 30 /\
   option_map (fun cs => item cs 30) cells = Some None /\
   thrown (handleKeyboardNavigation cells VK_HOME this) = true /\
   thrown (forwardFocusToCell cells this) = true).
Proof. cbv zeta. repeat split; vm_compute; reflexivity. Qed.

(** C8, at an input where the code departs from it.  With 28 days rendered
    and [selectedDayIndex = 30] the focus is 30; Home and End both throw on
    [cells[30].blur()] before [focusIndex] is written, so the focus stays at
    30 instead of [max(0, minEnabledIndex) = 0] and
    [min(cellCount, maxEnabledIndex) - 1 = 28]. *)
Theorem home_end_throw_before_moving_focus :
  let this := run [SetDayCount 28; SetSelectedDayIndex 30] in
  let cells := rendered_cells this in
  let home := handleKeyboardNavigation cells VK_HOME this in
  let end_ := handleKeyboardNavigation cells VK_END this in
  option_map length_of cells = Some 29 /\
  Z.max 0 (minEnabledIndex this) = 0 /\
  Z.min 29 (maxEnabledIndex this) - 1 = 28 /\
  thrown home = true /\ _focusIndex (final home) = 30 /\
  thrown end_ = true /\ _focusIndex (final end_) = 30.
Proof. cbv zeta. repeat split; vm_compute; reflexivity. Qed.

(** Where the focused index addresses a rendered cell, Home and End write
    the index the table gives: [max(0, minEnabledIndex)] and
    [min(cellCount, maxEnabledIndex) - 1]. *)
Theorem home_end_land (this : Grid) (cells : NodeList) :
  0 <= _focusIndex this < length_of cells ->
  _focusIndex (final (handleKeyboardNavigation (Some cells) VK_HOME this))
    = Z.max 0 (minEnabledIndex this) /\
  _focusIndex (final (handleKeyboardNavigation (Some cells) VK_END this))
    = Z.min (length_of cells) (maxEnabledIndex this) - 1.
Proof.
  intros Hfocus.
  destruct (item_in_range cells _ Hfocus) as [c Hc].
  split; rewrite handleKeyboardNavigation_unfold; cbv zeta; rewrite Hc;
    [ rewrite newFocusIndex_home | rewrite newFocusIndex_end ];
    match goal with
    | |- context [?new =? ?old] => destruct (Z.eqb_spec new old) as [E|E]
    end;
    try (cbn; lia);
    match goal with
    | |- context [item cells ?new] => destruct (item cells new)
    end; reflexivity.
Qed.

Lemma home_end_land_witness :
  let this := run [SetDayCount 31; SetMinEnabledIndex 5; SetMaxEnabledIndex 20] in
  let cells := match rendered_cells this with Some cs => cs | None => [] end in
  _focusIndex (final (handleKeyboardNavigation (Some cells) VK_HOME this)) = 5 /\
  _focusIndex (final (handleKeyboardNavigation (Some cells) VK_END this)) = 19.
Proof.
  cbv zeta.
  apply (home_end_land
           (run [SetDayCount 31; SetMinEnabledIndex 5; SetMaxEnabledIndex 20])).
  vm_compute. split; [ discriminate | reflexivity ].
Defined.

(* ------------------------------------------------------------------ *)
(** ** The renderer *)

Section ArraySet.

Context {A : Type}.

(** Reading back the slot just written, inside the array or past its end. *)
Lemma array_set_same (cells : list (option A)) (i : nat) (x : A) :
  nth_error (array_set cells i x) i = Some (Some x).
Proof.
  revert cells; induction i as [|i IH]; intros [|c rest]; cbn; auto.
Qed.

Lemma array_set_other (cells : list (option A)) (i j : nat) (x : A) :
  j <> i -> (j < List.length cells)%nat ->
  nth_error (array_set cells i x) j = nth_error cells j.
Proof.
  revert cells j; induction i as [|i IH]; intros [|c rest] [|j] Hne Hlt;
    cbn in *; try lia; auto.
  apply IH; lia.
Qed.

(** A write adds the written value and holes, nothing else. *)
Lemma array_set_In (cells : list (option A)) (i : nat) (x y : A) :
  In (Some y) (array_set cells i x) -> y = x \/ In (Some y) cells.
Proof.
  revert cells; induction i as [|i IH]; intros [|c rest]; cbn.
  - intros [H|[]]; left; congruence.
  - intros [H|H]; [ left; congruence | auto ].
  - intros [H|H]; [ discriminate | ].
    destruct (IH [] H) as [E|[]]; auto.
  - intros [H|H]; [ auto | ].
    destruct (IH rest H); auto.
Qed.

End ArraySet.

(** C10: when [selectedDayIndex >= 0], the rendered grid holds at index
    [selectedDayIndex] the cell built by [Cell(selectedDayIndex, true,
    !enabled)]: it carries no selection callback, whether or not the index
    is in the enabled range, and a click on it changes nothing and fires
    nothing. *)
Theorem selected_cell_has_no_callback (this : Grid) :
  0 <= dayCount this ->
  0 <= selectedDayIndex this ->
  let sel := selectedDayIndex this in
  let c := Cell sel true (negb (isCellEnabled this sel)) None in
  exists t,
    render this = Some t /\
    nth_error (grid t) (Z.to_nat sel) = Some (Some c) /\
    selected c = true /\
    handleSelect c = None /\
    forall g, click c g = mkOutcome (Normal tt) g [].
Proof.
  intros Hdays Hsel; cbv zeta. unfold render.
  destruct (Z.ltb_spec (dayCount this) 0); [ lia | ].
  rewrite Z.geb_leb.
  destruct (Z.leb_spec 0 (selectedDayIndex this)); [ | lia ].
  eexists; split; [ reflexivity | cbn [grid] ].
  rewrite array_set_same. repeat split.
Qed.

Lemma selected_cell_has_no_callback_witness :
  let this := run [SetDayCount 31; SetSelectedDayIndex 4] in
  let c := Cell 4 true false None in
  isCellEnabled this 4 = true /\
  exists t,
    render this = Some t /\
    nth_error (grid t) 4 = Some (Some c) /\
    selected c = true /\
    handleSelect c = None /\
    forall g, click c g = mkOutcome (Normal tt) g [].
Proof.
  cbv zeta. split; [ reflexivity | ].
  apply (selected_cell_has_no_callback
           (run [SetDayCount 31; SetSelectedDayIndex 4]));
    cbn; lia.
Defined.

(** Every rendered cell that is marked disabled carries no selection
    callback: a click on a disabled cell fires nothing. *)
Theorem disabled_cell_has_no_callback (this : Grid) (t : TemplateResult)
    (c : CellTemplate) :
  render this = Some t ->
  In (Some c) (grid t) ->
  disabled c = true ->
  handleSelect c = None /\
  forall g, click c g = mkOutcome (Normal tt) g [].
Proof.
  unfold render. destruct (dayCount this <? 0); [ discriminate | ].
  intros Ht Hin Hdis. injection Ht as <-. cbn [grid] in Hin.
  assert (Hc : handleSelect c = None).
  { assert (Hmap : forall l, In (Some c)
              (map (fun i =>
                      Some (Cell i false (negb (isCellEnabled this i))
                              (if isCellEnabled this i
                               then Some onCellSelected_bound else None))) l) ->
              handleSelect c = None).
    { intros l Hl. apply in_map_iff in Hl. destruct Hl as [i [Hi _]].
      injection Hi as <-. cbn in Hdis |- *.
      destruct (isCellEnabled this i); [ discriminate | reflexivity ]. }
    destruct (selectedDayIndex this >=? 0).
    - apply array_set_In in Hin. destruct Hin as [-> | Hin]; [ reflexivity | ].
      exact (Hmap _ Hin).
    - exact (Hmap _ Hin). }
  split; [ exact Hc | ].
  intros g. unfold click. rewrite Hc. reflexivity.
Qed.

Lemma disabled_cell_has_no_callback_witness :
  let this := run [SetDayCount 31; SetMinEnabledIndex 5] in
  let c := Cell 0 false true None in
  handleSelect c = None /\
  forall g, click c g = mkOutcome (Normal tt) g [].
Proof.
  cbv zeta.
  refine (disabled_cell_has_no_callback
            (run [SetDayCount 31; SetMinEnabledIndex 5])
            (match render (run [SetDayCount 31; SetMinEnabledIndex 5]) with
             | Some t => t
             | None => mkTemplate 0 []
             end) (Cell 0 false true None) _ _ _).
  - reflexivity.
  - cbn. left. reflexivity.
  - reflexivity.
Defined.

(* ------------------------------------------------------------------ *)
(** ** Safe navigation and a session *)

(** While the focused index addresses a rendered cell, an arrow key never
    throws, and the focus stays on a rendered cell. *)
Theorem arrows_never_throw (this : Grid) (cells : NodeList) (keyCode : Z) :
  0 <= _focusIndex this < length_of cells ->
  In keyCode [VK_LEFT; VK_RIGHT; VK_DOWN; VK_UP] ->
  let r := handleKeyboardNavigation (Some cells) keyCode this in
  result r = Normal tt /\
  0 <= _focusIndex (final r) < length_of cells.
Proof.
  intros Hfocus Hkey; cbv zeta.
  assert (Hnew : 0 <= newFocusIndex cells keyCode this < length_of cells).
  { pose proof (jumpBackward_bounds this 1) as B1.
    pose proof (jumpBackward_bounds this 7) as B7.
    pose proof (jumpForward_bounds this 1 (length_of cells)) as F1.
    pose proof (jumpForward_bounds this 7 (length_of cells)) as F7.
    cbn in Hkey.
    destruct Hkey as [<-|[<-|[<-|[<-|[]]]]];
      unfold newFocusIndex, dispatch, bind, gets; cbn; lia. }
  rewrite handleKeyboardNavigation_unfold; cbv zeta.
  destruct (item_in_range cells _ Hfocus) as [c ->].
  destruct (item_in_range cells _ Hnew) as [c' ->].
  destruct (_ =? _); cbn; auto.
Qed.

Lemma arrows_never_throw_witness :
  let this := run [SetDayCount 31] in
  let cells := match rendered_cells this with Some cs => cs | None => [] end in
  let r := handleKeyboardNavigation (Some cells) VK_DOWN this in
  _focusIndex (final r) = 7 /\
  result r = Normal tt /\
  0 <= _focusIndex (final r) < length_of cells.
Proof.
  cbv zeta. split; [ reflexivity | ].
  apply (arrows_never_throw (run [SetDayCount 31])).
  - vm_compute. split; [ discriminate | reflexivity ].
  - cbn. auto.
Defined.

(** A session on a 31-day grid with the default bounds: Home puts the
    focus on 0, five presses of Right put it on 5, and Enter then fires
    [cell-selected] with [day = 6]. *)
Example session_home_right_enter :
  let this := run [SetDayCount 31] in
  let cells := rendered_cells this in
  let at_home := exec this (KeyDown cells VK_HOME) in
  let at_five := fold_left exec (repeat (KeyDown cells VK_RIGHT) 5) at_home in
  option_map length_of cells = Some 31 /\
  _focusIndex at_home = 0 /\
  _focusIndex at_five = 5 /\
  trace (handleKeyboardNavigation cells VK_ENTER at_five)
    = [PreventDefault; Fire "cell-selected" 6].
Proof. cbv zeta. repeat split; vm_compute; reflexivity. Qed.

(** The bounds setters, as the scenarios of the specification run them:
    with bounds 5 and 20, selecting index 2 resets the focus to 5; with the
    focus on 10 and [maxEnabledIndex = 12], Down is refused. *)
Example session_bounds :
  _focusIndex
    (run [SetMinEnabledIndex 5; SetMaxEnabledIndex 20; SetSelectedDayIndex 2])
    = 5 /\
  jumpForward (run [SetSelectedDayIndex 10; SetMaxEnabledIndex 12]) 7 31 = 10.
Proof. split; reflexivity. Qed.


(* ------------------------------------------------------------------ *)
(** ** The key router, in general *)

Lemma with_focusIndex_same (this : Grid) :
  with_focusIndex (_focusIndex this) this = this.
Proof. destruct this; reflexivity. Qed.

Lemma item_missing_iff (cells : NodeList) (i : Z) :
  item cells i = None <-> ~ 0 <= i < length_of cells.
Proof.
  split.
  - intros H Hi. destruct (item_in_range cells i Hi) as [c Hc]. congruence.
  - intros H. apply item_out_of_range. lia.
Qed.

(** The index each key computes. *)
Lemma newFocusIndex_eq (cells : NodeList) (keyCode : Z) (this : Grid) :
  newFocusIndex cells keyCode this =
  if keyCode =? VK_LEFT then jumpBackward this 1
  else if keyCode =? VK_RIGHT then jumpForward this 1 (length_of cells)
  else if keyCode =? VK_DOWN then jumpForward this 7 (length_of cells)
  else if keyCode =? VK_UP then jumpBackward this 7
  else if keyCode =? VK_END
       then Z.min (length_of cells) (maxEnabledIndex this) - 1
  else if keyCode =? VK_HOME then Z.max 0 (minEnabledIndex this)
  else _focusIndex this.
Proof.
  unfold newFocusIndex, dispatch, bind, gets; cbn.
  by_cases_on_key keyCode; reflexivity.
Qed.

(** The index a key computes depends on the focus, the bounds and the
    number of cells only. *)
Lemma newFocusIndex_with_focusIndex (cells : NodeList) (keyCode v : Z)
    (this : Grid) :
  keyCode = VK_HOME \/ keyCode = VK_END ->
  newFocusIndex cells keyCode (with_focusIndex v this)
    = newFocusIndex cells keyCode this.
Proof. intros [-> | ->]; reflexivity. Qed.

Lemma forwardFocusToCell_final (cells : option NodeList) (this : Grid) :
  final (forwardFocusToCell cells this) = this.
Proof.
  destruct cells as [cells|]; [ | reflexivity ].
  unfold forwardFocusToCell, bind, gets, when, focus_at, emit, throw, ret; cbn.
  destruct (_ <? _); [ | reflexivity ].
  destruct (item cells _); reflexivity.
Qed.

Lemma click_final (c : CellTemplate) (this : Grid) :
  final (click c this) = this.
Proof. unfold click. destruct (handleSelect c) as [[]|]; reflexivity. Qed.

(** The handlers write no field but [_focusIndex]: a keydown leaves the
    selection, both bounds, [dayCount] and [gridOffset] as they were,
    whether it completes or throws, and the focus handler and a click on a
    cell change no field at all. *)
Theorem handlers_write_focusIndex_only (this : Grid)
    (cells : option NodeList) (keyCode : Z) (c : CellTemplate) :
  let r := handleKeyboardNavigation cells keyCode this in
  final r = with_focusIndex (_focusIndex (final r)) this /\
  final (forwardFocusToCell cells this) = this /\
  final (click c this) = this.
Proof.
  cbv zeta. repeat split.
  - destruct cells as [cells|]; [ | cbn; symmetry; apply with_focusIndex_same ].
    rewrite handleKeyboardNavigation_unfold; cbv zeta.
    destruct (_ =? _); [ cbn; symmetry; apply with_focusIndex_same | ].
    destruct (item cells (_focusIndex this));
      [ | cbn; symmetry; apply with_focusIndex_same ].
    destruct (item cells _); reflexivity.
  - apply forwardFocusToCell_final.
  - apply click_final.
Qed.

(** A keydown throws exactly when the key computes an index other than the
    focused one and the focused index or the computed index is not the
    index of a rendered cell. *)
Theorem keydown_throws_iff (this : Grid) (cells : NodeList) (keyCode : Z) :
  let old := _focusIndex this in
  let new := newFocusIndex cells keyCode this in
  thrown (handleKeyboardNavigation (Some cells) keyCode this) = true <->
  new <> old /\
  ~ (0 <= old < length_of cells /\ 0 <= new < length_of cells).
Proof.
  cbv zeta. rewrite handleKeyboardNavigation_unfold; cbv zeta.
  set (new := newFocusIndex cells keyCode this).
  destruct (Z.eqb_spec new (_focusIndex this)) as [E|E].
  - cbn. split; [ discriminate | intros [H _]; contradiction ].
  - destruct (item cells (_focusIndex this)) as [c|] eqn:Hold.
    + destruct (item cells new) as [c'|] eqn:Hnew; cbn.
      * split; [ discriminate | ].
        intros [_ H]. exfalso. apply H. split.
        -- destruct (Z.lt_ge_cases (_focusIndex this) 0) as [L|L];
             [ | destruct (Z.lt_ge_cases (_focusIndex this) (length_of cells)) ];
             try lia;
             rewrite item_out_of_range in Hold by lia; discriminate.
        -- destruct (Z.lt_ge_cases new 0) as [L|L];
             [ | destruct (Z.lt_ge_cases new (length_of cells)) ];
             try lia;
             rewrite item_out_of_range in Hnew by lia; discriminate.
      * split; [ intros _ | reflexivity ].
        split; [ exact E | ].
        apply item_missing_iff in Hnew. tauto.
    + cbn. split; [ intros _ | reflexivity ].
      split; [ exact E | ].
      apply item_missing_iff in Hold. tauto.
Qed.

(** The focus handler changes no field and never blurs: it focuses the
    cell at [focusIndex] when that index is below [maxEnabledIndex] and is
    the index of a rendered cell, throws when it is below [maxEnabledIndex]
    and is not, and does nothing otherwise.  There is no check against
    [minEnabledIndex]. *)
Theorem forwardFocusToCell_spec (this : Grid) (cells : NodeList) :
  let r := forwardFocusToCell (Some cells) this in
  let f := _focusIndex this in
  final r = this /\
  (trace r = [Focus f] <->
   f < maxEnabledIndex this /\ 0 <= f < length_of cells) /\
  (thrown r = true <->
   f < maxEnabledIndex this /\ ~ 0 <= f < length_of cells) /\
  (trace r = [] \/ trace r = [Focus f]).
Proof.
  cbv zeta.
  unfold forwardFocusToCell, bind, gets, when, focus_at, emit, throw, ret,
    thrown; cbn.
  destruct (Z.ltb_spec (_focusIndex this) (maxEnabledIndex this)) as [L|L].
  - destruct (item cells (_focusIndex this)) as [c|] eqn:Hc; cbn.
    + assert (0 <= _focusIndex this < length_of cells).
      { destruct (Z.lt_ge_cases (_focusIndex this) 0);
          [ | destruct (Z.lt_ge_cases (_focusIndex this) (length_of cells)) ];
          try lia;
          rewrite item_out_of_range in Hc by lia; discriminate. }
      repeat split; auto; try discriminate; try tauto.
    + apply item_missing_iff in Hc.
      repeat split; auto; try discriminate; try tauto.
  - cbn. repeat split; auto; try discriminate; try lia.
Qed.

(** Where the focused index and the computed index are both indices of
    rendered cells, the keydown ends with the focus on the computed index. *)
Lemma exec_keydown_in_range (this : Grid) (cells : NodeList) (keyCode : Z) :
  0 <= _focusIndex this < length_of cells ->
  0 <= newFocusIndex cells keyCode this < length_of cells ->
  handleKeyboardNavigation (Some cells) keyCode this =
    mkOutcome (Normal tt)
      (with_focusIndex (newFocusIndex cells keyCode this) this)
      (trace (handleKeyboardNavigation (Some cells) keyCode this)).
Proof.
  intros Hold Hnew.
  rewrite handleKeyboardNavigation_unfold; cbv zeta.
  destruct (item_in_range cells _ Hold) as [c ->].
  destruct (item_in_range cells _ Hnew) as [c' ->].
  destruct (Z.eqb_spec (newFocusIndex cells keyCode this) (_focusIndex this))
    as [E|E]; cbn; [ | reflexivity ].
  rewrite E, with_focusIndex_same. reflexivity.
Qed.



(** Home and End are idempotent on the state: a second press leaves the
    fields as the first press left them, for every state and every cell
    collection, also when the press throws. *)
Theorem home_end_idempotent (this : Grid) (cells : option NodeList) :
  exec (exec this (KeyDown cells VK_HOME)) (KeyDown cells VK_HOME)
    = exec this (KeyDown cells VK_HOME) /\
  exec (exec this (KeyDown cells VK_END)) (KeyDown cells VK_END)
    = exec this (KeyDown cells VK_END).
Proof.
  assert (H : forall keyCode, keyCode = VK_HOME \/ keyCode = VK_END ->
            exec (exec this (KeyDown cells keyCode)) (KeyDown cells keyCode)
              = exec this (KeyDown cells keyCode)).
  { intros keyCode Hkey. unfold exec; cbn [react].
    destruct cells as [cells|]; [ | reflexivity ].
    assert (Hfix : forall new,
              new = newFocusIndex cells keyCode this ->
              final (handleKeyboardNavigation (Some cells) keyCode
                       (with_focusIndex new this))
                = with_focusIndex new this).
    { intros new ->.
      rewrite handleKeyboardNavigation_unfold; cbv zeta.
      rewrite newFocusIndex_with_focusIndex by assumption.
      cbn [_focusIndex with_focusIndex]. rewrite Z.eqb_refl. reflexivity. }
    assert (Hcases :
              final (handleKeyboardNavigation (Some cells) keyCode this) = this \/
              final (handleKeyboardNavigation (Some cells) keyCode this)
                = with_focusIndex (newFocusIndex cells keyCode this) this).
    { rewrite handleKeyboardNavigation_unfold; cbv zeta.
      destruct (_ =? _); [ left; reflexivity | ].
      destruct (item cells (_focusIndex this)); [ | left; reflexivity ].
      destruct (item cells _); right; reflexivity. }
    destruct Hcases as [E|E].
    - rewrite E. exact E.
    - rewrite E. apply Hfix. reflexivity. }
  split; apply H; auto.
Qed.

(** The final state of a keydown, where both indices are rendered. *)
Lemma exec_keydown_final (this : Grid) (cells : NodeList) (keyCode : Z) :
  0 <= _focusIndex this < length_of cells ->
  0 <= newFocusIndex cells keyCode this < length_of cells ->
  exec this (KeyDown (Some cells) keyCode)
    = with_focusIndex (newFocusIndex cells keyCode this) this.
Proof.
  intros Hold Hnew. unfold exec; cbn [react].
  rewrite exec_keydown_in_range by assumption. reflexivity.
Qed.

Lemma with_focusIndex_twice (v w : Z) (this : Grid) :
  with_focusIndex w (with_focusIndex v this) = with_focusIndex w this.
Proof. reflexivity. Qed.

(** From an enabled, rendered cell, an arrow key either does not move the
    cursor or is undone by the opposite arrow key: Left then Right, Right
    then Left, Up then Down and Down then Up bring the state back. *)
Theorem arrows_round_trip (this : Grid) (cells : NodeList) :
  0 <= _focusIndex this < length_of cells ->
  in_enabled_range this (_focusIndex this) ->
  let f := _focusIndex this in
  let lo := Z.max 0 (minEnabledIndex this) in
  let hi := Z.min (length_of cells) (maxEnabledIndex this) in
  let press k s := exec s (KeyDown (Some cells) k) in
  (if lo <=? f - 1 then press VK_RIGHT (press VK_LEFT this) = this
   else press VK_LEFT this = this) /\
  (if f + 1 <? hi then press VK_LEFT (press VK_RIGHT this) = this
   else press VK_RIGHT this = this) /\
  (if lo <=? f - 7 then press VK_DOWN (press VK_UP this) = this
   else press VK_UP this = this) /\
  (if f + 7 <? hi then press VK_UP (press VK_DOWN this) = this
   else press VK_DOWN this = this).
Proof.
  unfold in_enabled_range. intros Hold Hen; cbv zeta.
  assert (Hback : forall step k k',
            0 < step ->
            (forall s, newFocusIndex cells k s = jumpBackward s step) ->
            (forall s, newFocusIndex cells k' s
                         = jumpForward s step (length_of cells)) ->
            if Z.max 0 (minEnabledIndex this) <=? _focusIndex this - step
            then exec (exec this (KeyDown (Some cells) k))
                      (KeyDown (Some cells) k') = this
            else exec this (KeyDown (Some cells) k) = this).
  { intros step k k' Hstep Hk Hk'.
    destruct (Z.leb_spec (Z.max 0 (minEnabledIndex this))
                         (_focusIndex this - step)) as [L|L].
    - rewrite (exec_keydown_final this), Hk, jumpBackward_taken by
        (rewrite ?Hk, ?jumpBackward_taken; lia).
      rewrite exec_keydown_final; rewrite ?Hk', ?jumpForward_taken;
        cbn [_focusIndex with_focusIndex maxEnabledIndex _maxEnabledIndex];
        try (unfold maxEnabledIndex in *; lia).
      rewrite with_focusIndex_twice.
      replace (_focusIndex this - step + step) with (_focusIndex this) by lia.
      apply with_focusIndex_same.
    - rewrite exec_keydown_final, Hk, jumpBackward_refused by
        (rewrite ?Hk, ?jumpBackward_refused; lia).
      apply with_focusIndex_same. }
  assert (Hforth : forall step k k',
            0 < step ->
            (forall s, newFocusIndex cells k s = jumpBackward s step) ->
            (forall s, newFocusIndex cells k' s
                         = jumpForward s step (length_of cells)) ->
            if _focusIndex this + step
                 <? Z.min (length_of cells) (maxEnabledIndex this)
            then exec (exec this (KeyDown (Some cells) k'))
                      (KeyDown (Some cells) k) = this
            else exec this (KeyDown (Some cells) k') = this).
  { intros step k k' Hstep Hk Hk'.
    destruct (Z.ltb_spec (_focusIndex this + step)
                (Z.min (length_of cells) (maxEnabledIndex this))) as [L|L].
    - rewrite (exec_keydown_final this), Hk', jumpForward_taken by
        (rewrite ?Hk', ?jumpForward_taken; lia).
      rewrite exec_keydown_final; rewrite ?Hk, ?jumpBackward_taken;
        cbn [_focusIndex with_focusIndex minEnabledIndex _minEnabledIndex];
        try (unfold minEnabledIndex in *; lia).
      rewrite with_focusIndex_twice.
      replace (_focusIndex this + step - step) with (_focusIndex this) by lia.
      apply with_focusIndex_same.
    - rewrite exec_keydown_final, Hk', jumpForward_refused by
        (rewrite ?Hk', ?jumpForward_refused; lia).
      apply with_focusIndex_same. }
  repeat split.
  - apply (Hback 1 VK_LEFT VK_RIGHT); [ lia | | ]; reflexivity.
  - apply (Hforth 1 VK_LEFT VK_RIGHT); [ lia | | ]; reflexivity.
  - apply (Hback 7 VK_UP VK_DOWN); [ lia | | ]; reflexivity.
  - apply (Hforth 7 VK_UP VK_DOWN); [ lia | | ]; reflexivity.
Qed.

Lemma arrows_round_trip_witness :
  let this := run [SetDayCount 31; SetSelectedDayIndex 10] in
  let cells := match rendered_cells this with Some cs => cs | None => [] end in
  let press k s := exec s (KeyDown (Some cells) k) in
  _focusIndex (press VK_UP this) = 3 /\
  press VK_RIGHT (press VK_LEFT this) = this /\
  press VK_LEFT (press VK_RIGHT this) = this /\
  press VK_DOWN (press VK_UP this) = this /\
  press VK_UP (press VK_DOWN this) = this.
Proof.
  cbv zeta. split; [ reflexivity | ].
  apply (arrows_round_trip (run [SetDayCount 31; SetSelectedDayIndex 10])).
  - vm_compute. split; [ discriminate | reflexivity ].
  - unfold in_enabled_range; cbn. lia.
Defined.

(** The handler intercepts the eight keys of its [switch] and no other: for
    each of them [preventDefault] is the first thing it does, and on any
    other key it does nothing at all. *)
Theorem keydown_intercepts_handled_keys_only (this : Grid) (cells : NodeList)
    (keyCode : Z) :
  let r := handleKeyboardNavigation (Some cells) keyCode this in
  if existsb (Z.eqb keyCode)
       [VK_LEFT; VK_RIGHT; VK_DOWN; VK_UP; VK_END; VK_HOME; VK_SPACE; VK_ENTER]
  then hd_error (trace r) = Some PreventDefault
  else r = mkOutcome (Normal tt) this [].
Proof.
  cbv zeta. rewrite handleKeyboardNavigation_unfold; cbv zeta.
  rewrite dispatch_trace, newFocusIndex_eq. unfold is_activation.
  cbn [existsb].
  by_cases_on_key keyCode;
    repeat match goal with
           | H : (?k =? _) = true |- _ => apply Z.eqb_eq in H; subst k
           end;
    cbn [orb andb]; rewrite ?Z.eqb_refl;
    first [ reflexivity
          | destruct (_ =? _focusIndex this); [ reflexivity | ];
            destruct (item cells (_focusIndex this)); [ | reflexivity ];
            destruct (item cells _); reflexivity ].
Qed.

(* ------------------------------------------------------------------ *)
(** ** The renderer, in general *)

(** Reading any slot of an array after a write: the written slot, an old
    slot, a hole between the old end and the written slot, or nothing. *)
Lemma nth_error_array_set {A : Type} (cells : list (option A)) (i : nat)
    (x : A) (j : nat) :
  nth_error (array_set cells i x) j =
  if (j =? i)%nat then Some (Some x)
  else if (j <? List.length cells)%nat then nth_error cells j
  else if (j <? i)%nat then Some None
  else None.
Proof.
  revert cells j; induction i as [|i IH]; intros [|c rest] [|j]; cbn;
    try reflexivity.
  - destruct j; reflexivity.
  - refine (_ : nth_error rest j =
                if (j <? List.length rest)%nat then nth_error rest j else None).
    destruct (Nat.ltb_spec j (List.length rest)) as [L|L]; [ reflexivity | ].
    apply nth_error_None. exact L.
  - rewrite IH. reflexivity.
  - rewrite IH. reflexivity.
Qed.

Lemma nth_error_keys (n : Z) (j : nat) :
  nth_error (keys n) j =
  if (j <? Z.to_nat n)%nat then Some (Z.of_nat j) else None.
Proof.
  unfold keys. rewrite nth_error_map, nth_error_seq.
  destruct (j <? Z.to_nat n)%nat; reflexivity.
Qed.

(** The grid [render] returns, slot by slot.  Slot [selectedDayIndex] holds
    the selected cell; any other slot below [dayCount] holds the cell of
    its own index, with a callback exactly when the index is enabled; the
    slots from [dayCount] up to [selectedDayIndex] are holes; there is
    nothing beyond. *)
Theorem render_grid_at (this : Grid) (t : TemplateResult) (i : Z) :
  render this = Some t ->
  0 <= i ->
  nth_error (grid t) (Z.to_nat i) =
  if i =? selectedDayIndex this
  then Some (Some (Cell i true (negb (isCellEnabled this i)) None))
  else if i <? dayCount this
  then Some (Some (Cell i false (negb (isCellEnabled this i))
                     (if isCellEnabled this i
                      then Some onCellSelected_bound else None)))
  else if i <? selectedDayIndex this then Some None
  else None.
Proof.
  unfold render. destruct (Z.ltb_spec (dayCount this) 0) as [Hd|Hd];
    [ discriminate | ].
  intros Ht Hi. injection Ht as <-. cbn [grid].
  assert (Hbase : forall j : nat,
            nth_error
              (map (fun i0 =>
                      Some (Cell i0 false (negb (isCellEnabled this i0))
                              (if isCellEnabled this i0
                               then Some onCellSelected_bound else None)))
                   (keys (dayCount this))) j
            = if Z.of_nat j <? dayCount this
              then Some (Some (Cell (Z.of_nat j) false
                                 (negb (isCellEnabled this (Z.of_nat j)))
                                 (if isCellEnabled this (Z.of_nat j)
                                  then Some onCellSelected_bound else None)))
              else None).
  { intros j. rewrite nth_error_map, nth_error_keys.
    destruct (Nat.ltb_spec j (Z.to_nat (dayCount this)));
      destruct (Z.ltb_spec (Z.of_nat j) (dayCount this)); try lia; reflexivity. }
  rewrite Z.geb_leb.
  destruct (Z.leb_spec 0 (selectedDayIndex this)) as [Hs|Hs].
  - rewrite nth_error_array_set, length_map. unfold keys.
    rewrite length_map, length_seq.
    destruct (Nat.eqb_spec (Z.to_nat i) (Z.to_nat (selectedDayIndex this)));
      destruct (Z.eqb_spec i (selectedDayIndex this)); try lia;
      [ subst i; reflexivity | ].
    fold (keys (dayCount this)). rewrite Hbase, Z2Nat.id by assumption.
    destruct (Nat.ltb_spec (Z.to_nat i) (Z.to_nat (dayCount this)));
      destruct (Z.ltb_spec i (dayCount this)); try lia; [ reflexivity | ].
    destruct (Nat.ltb_spec (Z.to_nat i) (Z.to_nat (selectedDayIndex this)));
      destruct (Z.ltb_spec i (selectedDayIndex this)); try lia; reflexivity.
  - rewrite Hbase, Z2Nat.id by assumption.
    destruct (Z.eqb_spec i (selectedDayIndex this)); [ lia | ].
    destruct (Z.ltb_spec i (dayCount this)); [ reflexivity | ].
    destruct (Z.ltb_spec i (selectedDayIndex this)); [ lia | reflexivity ].
Qed.

Lemma render_grid_at_witness :
  let this := run [SetDayCount 3; SetSelectedDayIndex 5] in
  let t := match render this with Some t => t | None => mkTemplate 0 [] end in
  nth_error (grid t) 1 =
    Some (Some (Cell 1 false false (Some onCellSelected_bound))) /\
  nth_error (grid t) 4 = Some None /\
  nth_error (grid t) 5 = Some (Some (Cell 5 true false None)) /\
  nth_error (grid t) 6 = None.
Proof.
  cbv zeta.
  pose proof (fun i =>
    render_grid_at (run [SetDayCount 3; SetSelectedDayIndex 5])
      (match render (run [SetDayCount 3; SetSelectedDayIndex 5]) with
       | Some t => t
       | None => mkTemplate 0 []
       end) i eq_refl) as H.
  split; [ | split; [ | split ] ].
  - apply (H 1). lia.
  - apply (H 4). lia.
  - apply (H 5). lia.
  - apply (H 6). lia.
Defined.

(** Every rendered cell describes the slot it stands in: its index is the
    slot's, it shows [index + 1], it is marked selected exactly in slot
    [selectedDayIndex], it is marked disabled exactly when its index is
    outside the enabled range, and it lacks a selection callback exactly
    when it is the selected cell or a disabled one. *)
Theorem rendered_cell_describes_its_slot (this : Grid) (t : TemplateResult)
    (n : nat) (c : CellTemplate) :
  render this = Some t ->
  nth_error (grid t) n = Some (Some c) ->
  let i := Z.of_nat n in
  index c = i /\
  text c = i + 1 /\
  (selected c = true <-> i = selectedDayIndex this) /\
  disabled c = negb (isCellEnabled this i) /\
  (handleSelect c = None <->
   i = selectedDayIndex this \/ isCellEnabled this i = false).
Proof.
  intros Ht Hn; cbv zeta.
  pose proof (render_grid_at this t (Z.of_nat n) Ht (Nat2Z.is_nonneg n)) as H.
  rewrite Nat2Z.id, Hn in H.
  destruct (Z.eqb_spec (Z.of_nat n) (selectedDayIndex this)) as [E|E].
  - injection H as ->. cbn. repeat split; auto.
  - destruct (Z.of_nat n <? dayCount this).
    + injection H as ->. cbn. repeat split; try discriminate; try tauto.
      * destruct (isCellEnabled this (Z.of_nat n)); [ discriminate | auto ].
      * intros [H | H]; [ contradiction | rewrite H; reflexivity ].
    + destruct (Z.of_nat n <? selectedDayIndex this); discriminate.
Qed.

Lemma rendered_cell_describes_its_slot_witness :
  let this := run [SetDayCount 31; SetMinEnabledIndex 5; SetSelectedDayIndex 7] in
  let c := Cell 2 false true None in
  index c = 2 /\
  text c = 2 + 1 /\
  (selected c = true <-> 2 = selectedDayIndex this) /\
  disabled c = negb (isCellEnabled this 2) /\
  (handleSelect c = None <->
   2 = selectedDayIndex this \/ isCellEnabled this 2 = false).
Proof.
  cbv zeta.
  refine (rendered_cell_describes_its_slot
            (run [SetDayCount 31; SetMinEnabledIndex 5; SetSelectedDayIndex 7])
            (match render (run [SetDayCount 31; SetMinEnabledIndex 5;
                                SetSelectedDayIndex 7]) with
             | Some t => t
             | None => mkTemplate 0 []
             end) 2 (Cell 2 false true None) _ _); reflexivity.
Defined.

(** A click on a rendered cell never changes the state.  It fires
    [cell-selected] exactly when the cell is enabled and is not the selected
    one, and the day it announces is the number the cell shows, an enabled
    day between 1 and [dayCount]. *)
Theorem click_fires_displayed_day (this : Grid) (t : TemplateResult)
    (c : CellTemplate) (g : Grid) :
  render this = Some t ->
  In (Some c) (grid t) ->
  let fires := isCellEnabled this (index c) && negb (selected c) in
  click c g =
    mkOutcome (Normal tt) g
      (if fires then [Fire "cell-selected" (text c)] else []) /\
  (fires = true ->
   1 <= text c <= dayCount this /\
   minEnabledIndex this < text c <= maxEnabledIndex this).
Proof.
  intros Ht Hin; cbv zeta.
  destruct (In_nth_error _ _ Hin) as [n Hn].
  pose proof (render_grid_at this t (Z.of_nat n) Ht (Nat2Z.is_nonneg n)) as H.
  rewrite Nat2Z.id, Hn in H.
  destruct (Z.eqb_spec (Z.of_nat n) (selectedDayIndex this)) as [E|E].
  - injection H as ->. cbn. rewrite andb_false_r.
    split; [ reflexivity | discriminate ].
  - destruct (Z.ltb_spec (Z.of_nat n) (dayCount this)) as [L|L].
    + injection H as ->. cbn. rewrite andb_true_r.
      destruct (isCellEnabled this (Z.of_nat n)) eqn:Hen; cbn.
      * split; [ reflexivity | intros _ ].
        unfold isCellEnabled in Hen.
        apply andb_true_iff in Hen. destruct Hen as [Hlt Hge].
        apply Z.ltb_lt in Hlt. rewrite Z.geb_leb in Hge.
        apply Z.leb_le in Hge. lia.
      * split; [ reflexivity | discriminate ].
    + destruct (Z.of_nat n <? selectedDayIndex this); discriminate.
Qed.

Lemma click_fires_displayed_day_witness :
  let this := run [SetDayCount 31; SetMinEnabledIndex 5; SetSelectedDayIndex 7] in
  let c := Cell 9 false false (Some onCellSelected_bound) in
  click c this = mkOutcome (Normal tt) this [Fire "cell-selected" 10] /\
  (true = true ->
   1 <= 10 <= dayCount this /\
   minEnabledIndex this < 10 <= maxEnabledIndex this).
Proof.
  cbv zeta.
  refine (click_fires_displayed_day
            (run [SetDayCount 31; SetMinEnabledIndex 5; SetSelectedDayIndex 7])
            (match render (run [SetDayCount 31; SetMinEnabledIndex 5;
                                SetSelectedDayIndex 7]) with
             | Some t => t
             | None => mkTemplate 0 []
             end) (Cell 9 false false (Some onCellSelected_bound)) _ _ _).
  - reflexivity.
  - apply (nth_error_In _ 9). reflexivity.
Defined.

(** The grid as one list: the cells of the days, then, when the selected
    index is past the last day, holes and the selected cell. *)
Lemma render_grid_shape (this : Grid) (t : TemplateResult) :
  render this = Some t ->
  let n := dayCount this in
  let sel := selectedDayIndex this in
  let cell_at i :=
    if i =? sel then Cell i true (negb (isCellEnabled this i)) None
    else Cell i false (negb (isCellEnabled this i))
           (if isCellEnabled this i then Some onCellSelected_bound else None) in
  0 <= n /\
  grid t =
    if n <=? sel
    then map Some (map cell_at (keys n))
           ++ repeat None (Z.to_nat (sel - n)) ++ [Some (cell_at sel)]
    else map Some (map cell_at (keys n)).
Proof.
  intros Ht; cbv zeta.
  assert (Hn : 0 <= dayCount this).
  { unfold render in Ht. destruct (Z.ltb_spec (dayCount this) 0);
      [ discriminate | assumption ]. }
  split; [ exact Hn | ].
  apply nth_error_ext. intros j.
  pose proof (render_grid_at this t (Z.of_nat j) Ht (Nat2Z.is_nonneg j)) as H.
  rewrite Nat2Z.id in H. rewrite H. clear H.
  assert (Hbase : nth_error
            (map Some
               (map (fun i =>
                       if i =? selectedDayIndex this
                       then Cell i true (negb (isCellEnabled this i)) None
                       else Cell i false (negb (isCellEnabled this i))
                              (if isCellEnabled this i
                               then Some onCellSelected_bound else None))
                    (keys (dayCount this)))) j
            = if Z.of_nat j <? dayCount this
              then Some (Some
                     (if Z.of_nat j =? selectedDayIndex this
                      then Cell (Z.of_nat j) true
                             (negb (isCellEnabled this (Z.of_nat j))) None
                      else Cell (Z.of_nat j) false
                             (negb (isCellEnabled this (Z.of_nat j)))
                             (if isCellEnabled this (Z.of_nat j)
                              then Some onCellSelected_bound else None)))
              else None).
  { rewrite !nth_error_map, nth_error_keys.
    destruct (Nat.ltb_spec j (Z.to_nat (dayCount this)));
      destruct (Z.ltb_spec (Z.of_nat j) (dayCount this)); try lia; reflexivity. }
  destruct (Z.leb_spec (dayCount this) (selectedDayIndex this)) as [Hsel|Hsel].
  - rewrite nth_error_app.
    replace (List.length
               (map Some
                  (map (fun i =>
                          if i =? selectedDayIndex this
                          then Cell i true (negb (isCellEnabled this i)) None
                          else Cell i false (negb (isCellEnabled this i))
                                 (if isCellEnabled this i
                                  then Some onCellSelected_bound else None))
                       (keys (dayCount this)))))
      with (Z.to_nat (dayCount this))
      by (unfold keys; rewrite !length_map, length_seq; reflexivity).
    destruct (Nat.ltb_spec j (Z.to_nat (dayCount this))) as [L|L].
    + rewrite Hbase.
      destruct (Z.eqb_spec (Z.of_nat j) (selectedDayIndex this)); [ lia | ].
      destruct (Z.ltb_spec (Z.of_nat j) (dayCount this)); [ reflexivity | lia ].
    + rewrite nth_error_app, repeat_length.
      destruct (Z.eqb_spec (Z.of_nat j) (selectedDayIndex this)) as [E|E].
      * destruct (Nat.ltb_spec (j - Z.to_nat (dayCount this))
                    (Z.to_nat (selectedDayIndex this - dayCount this)));
          [ lia | ].
        replace (j - Z.to_nat (dayCount this)
                 - Z.to_nat (selectedDayIndex this - dayCount this))%nat
          with 0%nat by lia.
        cbn. rewrite <- E, Z.eqb_refl. reflexivity.
      * destruct (Z.ltb_spec (Z.of_nat j) (dayCount this)); [ lia | ].
        destruct (Z.ltb_spec (Z.of_nat j) (selectedDayIndex this)) as [L'|L'];
          destruct (Nat.ltb_spec (j - Z.to_nat (dayCount this))
                      (Z.to_nat (selectedDayIndex this - dayCount this)));
          try lia.
        -- symmetry. apply nth_error_repeat. assumption.
        -- symmetry. apply nth_error_None. cbn. lia.
  - rewrite Hbase.
    destruct (Z.eqb_spec (Z.of_nat j) (selectedDayIndex this)) as [E|E].
    + destruct (Z.ltb_spec (Z.of_nat j) (dayCount this)); [ reflexivity | lia ].
    + destruct (Z.ltb_spec (Z.of_nat j) (dayCount this)); [ reflexivity | ].
      destruct (Z.ltb_spec (Z.of_nat j) (selectedDayIndex this));
        [ lia | reflexivity ].
Qed.






(* ------------------------------------------------------------------ *)
(** ** The setters, in general *)

(** From a state whose focus is in the enabled range, each setter leaves
    the focus in the (new) enabled range exactly when: the new
    [minEnabledIndex] is below [maxEnabledIndex]; the new [maxEnabledIndex]
    is above [minEnabledIndex]; the new [selectedDayIndex] is not
    [maxEnabledIndex]. *)
Theorem setters_keep_focus_enabled_iff (this : Grid) (v : Z) :
  in_enabled_range this (_focusIndex this) ->
  let after i := exec this i in
  let enabled s := in_enabled_range s (_focusIndex s) in
  (enabled (after (SetMinEnabledIndex v)) <-> v < maxEnabledIndex this) /\
  (enabled (after (SetMaxEnabledIndex v)) <-> minEnabledIndex this < v) /\
  (enabled (after (SetSelectedDayIndex v)) <-> v <> maxEnabledIndex this).
Proof.
  unfold in_enabled_range, exec; cbn [react]. intros Hin; cbv zeta.
  rewrite set_minEnabledIndex_final, set_maxEnabledIndex_final,
    set_selectedDayIndex_final.
  unfold minEnabledIndex, maxEnabledIndex in *.
  destruct (Z.geb_spec (_focusIndex this) v);
    destruct (Z.ltb_spec v (_minEnabledIndex this));
    destruct (Z.gtb_spec v (_maxEnabledIndex this));
    cbn; repeat split; intros; lia.
Qed.

Lemma setters_keep_focus_enabled_iff_witness :
  let this := run [SetSelectedDayIndex 10] in
  let after i := exec this i in
  let enabled s := in_enabled_range s (_focusIndex s) in
  (_focusIndex (after (SetMaxEnabledIndex 8)) = 0 /\
   _focusIndex (after (SetMinEnabledIndex 12)) = 12) /\
  (enabled (after (SetMinEnabledIndex 12)) <-> 12 < maxEnabledIndex this) /\
  (enabled (after (SetMaxEnabledIndex 8)) <-> minEnabledIndex this < 8) /\
  (enabled (after (SetSelectedDayIndex 8)) <-> 8 <> maxEnabledIndex this).
Proof.
  cbv zeta. split; [ split; reflexivity | ].
  split; [ | split ].
  - apply (setters_keep_focus_enabled_iff (run [SetSelectedDayIndex 10]) 12).
    unfold in_enabled_range; cbn; lia.
  - apply (setters_keep_focus_enabled_iff (run [SetSelectedDayIndex 10]) 8).
    unfold in_enabled_range; cbn; lia.
  - apply (setters_keep_focus_enabled_iff (run [SetSelectedDayIndex 10]) 8).
    unfold in_enabled_range; cbn; lia.
Defined.

(** Each setter is idempotent on the state: assigning the same value a
    second time changes no field.  For [selectedDayIndex] the last
    assignment wins: the state after two assignments is the state after
    the second alone. *)
Theorem setters_idempotent (this : Grid) (v w : Z) :
  exec (exec this (SetMinEnabledIndex v)) (SetMinEnabledIndex v)
    = exec this (SetMinEnabledIndex v) /\
  exec (exec this (SetMaxEnabledIndex v)) (SetMaxEnabledIndex v)
    = exec this (SetMaxEnabledIndex v) /\
  exec (exec this (SetSelectedDayIndex w)) (SetSelectedDayIndex v)
    = exec this (SetSelectedDayIndex v).
Proof.
  unfold exec; cbn [react].
  rewrite !set_minEnabledIndex_final, !set_maxEnabledIndex_final,
    !set_selectedDayIndex_final.
  repeat split.
  - unfold with_focusIndex, with_minEnabledIndex; cbn. f_equal. lia.
  - destruct (Z.geb_spec (_focusIndex this) v) as [L|L]; cbn.
    + destruct (Z.geb_spec (_minEnabledIndex this) v); reflexivity.
    + destruct (Z.geb_spec (_focusIndex this) v); [ lia | reflexivity ].
Qed.

(** The lower bound is an invariant of every input but an End keydown:
    from a state with [minEnabledIndex <= focusIndex], a setter, a click, a
    focus event or any other keydown leads to a state with
    [minEnabledIndex <= focusIndex], whatever cells are rendered. *)
Lemma exec_keeps_focus_above_min (this : Grid) (i : input) :
  (forall cells, i <> KeyDown cells VK_END) ->
  minEnabledIndex this <= _focusIndex this ->
  minEnabledIndex (exec this i) <= _focusIndex (exec this i).
Proof.
  intros Hend Hle. unfold exec; destruct i as [v|v|v|v|v|cells k|cells|c];
    cbn [react].
  - rewrite set_selectedDayIndex_final.
    unfold minEnabledIndex, maxEnabledIndex in *; cbn.
    destruct (Z.ltb_spec v (_minEnabledIndex this));
      destruct (Z.gtb_spec v (_maxEnabledIndex this)); cbn; lia.
  - rewrite set_minEnabledIndex_final; unfold minEnabledIndex; cbn. lia.
  - rewrite set_maxEnabledIndex_final; unfold minEnabledIndex in *.
    destruct (_focusIndex this >=? v); cbn; lia.
  - exact Hle.
  - exact Hle.
  - destruct cells as [cells|]; [ | exact Hle ].
    rewrite handleKeyboardNavigation_unfold; cbv zeta.
    assert (Hnew : minEnabledIndex this <= newFocusIndex cells k this).
    { rewrite newFocusIndex_eq.
      destruct (k =? VK_LEFT); [ by_cases_on_jump; lia | ].
      destruct (k =? VK_RIGHT); [ by_cases_on_jump; lia | ].
      destruct (k =? VK_DOWN); [ by_cases_on_jump; lia | ].
      destruct (k =? VK_UP); [ by_cases_on_jump; lia | ].
      destruct (Z.eqb_spec k VK_END) as [->|_];
        [ exfalso; exact (Hend (Some cells) eq_refl) | ].
      destruct (k =? VK_HOME); lia. }
    destruct (_ =? _); [ exact Hle | ].
    destruct (item cells (_focusIndex this)); [ | exact Hle ].
    destruct (item cells _); exact Hnew.
  - rewrite forwardFocusToCell_final. exact Hle.
  - rewrite click_final. exact Hle.
Qed.


(** In a run without an End keydown the focus never falls below
    [minEnabledIndex]: the lower bound holds in the initial state and every
    setter, click, focus event and other keydown keeps it. *)
Theorem focus_never_below_min_without_End (inputs : list input) :
  existsb is_End_keydown inputs = false ->
  minEnabledIndex (run inputs) <= _focusIndex (run inputs).
Proof.
  induction inputs as [|i inputs IH] using rev_ind; intros Hno.
  - cbn. lia.
  - rewrite existsb_app in Hno. apply orb_false_iff in Hno.
    destruct Hno as [Hinputs Hi]. cbn in Hi. rewrite orb_false_r in Hi.
    unfold run. rewrite fold_left_app. cbn [fold_left].
    apply exec_keeps_focus_above_min; [ | exact (IH Hinputs) ].
    intros cells ->. cbn in Hi. discriminate.
Qed.

Lemma focus_never_below_min_without_End_witness :
  let inputs := [SetMinEnabledIndex 10; SetMaxEnabledIndex 3;
                 SetMinEnabledIndex 5; KeyDown (Some []) VK_LEFT] in
  minEnabledIndex (run inputs) <= _focusIndex (run inputs).
Proof.
  cbv zeta.
  apply (focus_never_below_min_without_End
           [SetMinEnabledIndex 10; SetMaxEnabledIndex 3;
            SetMinEnabledIndex 5; KeyDown (Some []) VK_LEFT]).
  reflexivity.
Defined.

(* ------------------------------------------------------------------ *)
(** ** Repeated presses *)

Lemma right_presses (cells : NodeList) (k : nat) (this : Grid) :
  0 <= _focusIndex this < length_of cells ->
  in_enabled_range this (_focusIndex this) ->
  fold_left exec (repeat (KeyDown (Some cells) VK_RIGHT) k) this
    = with_focusIndex
        (Z.min (_focusIndex this + Z.of_nat k)
               (Z.min (length_of cells) (maxEnabledIndex this) - 1)) this.
Proof.
  unfold in_enabled_range. revert this.
  induction k as [|k IH]; intros this Hf Hen.
  - cbn [repeat fold_left].
    replace (Z.min _ _) with (_focusIndex this) by lia.
    symmetry. apply with_focusIndex_same.
  - cbn [repeat fold_left].
    pose proof (jumpForward_bounds this 1 (length_of cells)) as Hb.
    rewrite exec_keydown_final by
      (try assumption;
       change (newFocusIndex cells VK_RIGHT this)
         with (jumpForward this 1 (length_of cells)); lia).
    change (newFocusIndex cells VK_RIGHT this)
      with (jumpForward this 1 (length_of cells)).
    rewrite IH; cbn [_focusIndex with_focusIndex];
      unfold minEnabledIndex, maxEnabledIndex in *;
      cbn [_minEnabledIndex _maxEnabledIndex with_focusIndex].
    + rewrite with_focusIndex_twice. f_equal.
      revert Hb. by_cases_on_jump; unfold maxEnabledIndex in *; lia.
    + lia.
    + revert Hb. by_cases_on_jump; unfold maxEnabledIndex in *; lia.
Qed.

Lemma left_presses (cells : NodeList) (k : nat) (this : Grid) :
  0 <= _focusIndex this < length_of cells ->
  in_enabled_range this (_focusIndex this) ->
  fold_left exec (repeat (KeyDown (Some cells) VK_LEFT) k) this
    = with_focusIndex
        (Z.max (_focusIndex this - Z.of_nat k)
               (Z.max 0 (minEnabledIndex this))) this.
Proof.
  unfold in_enabled_range. revert this.
  induction k as [|k IH]; intros this Hf Hen.
  - cbn [repeat fold_left].
    replace (Z.max _ _) with (_focusIndex this) by lia.
    symmetry. apply with_focusIndex_same.
  - cbn [repeat fold_left].
    pose proof (jumpBackward_bounds this 1) as Hb.
    rewrite exec_keydown_final by
      (try assumption;
       change (newFocusIndex cells VK_LEFT this)
         with (jumpBackward this 1); lia).
    change (newFocusIndex cells VK_LEFT this) with (jumpBackward this 1).
    rewrite IH; cbn [_focusIndex with_focusIndex];
      unfold minEnabledIndex, maxEnabledIndex in *;
      cbn [_minEnabledIndex _maxEnabledIndex with_focusIndex].
    + rewrite with_focusIndex_twice. f_equal.
      revert Hb. by_cases_on_jump; unfold minEnabledIndex in *; lia.
    + lia.
    + revert Hb. by_cases_on_jump; unfold minEnabledIndex in *; lia.
Qed.

(** From an enabled, rendered cell, [k] presses of Right move the cursor
    [k] cells forward and stop on the last enabled rendered cell, the one
    End computes; [k] presses of Left move it [k] cells back and stop on
    the first one, the one Home computes.  No other field changes. *)
Theorem repeated_arrows_saturate (this : Grid) (cells : NodeList) (k : nat) :
  0 <= _focusIndex this < length_of cells ->
  in_enabled_range this (_focusIndex this) ->
  fold_left exec (repeat (KeyDown (Some cells) VK_RIGHT) k) this
    = with_focusIndex
        (Z.min (_focusIndex this + Z.of_nat k)
               (newFocusIndex cells VK_END this)) this /\
  fold_left exec (repeat (KeyDown (Some cells) VK_LEFT) k) this
    = with_focusIndex
        (Z.max (_focusIndex this - Z.of_nat k)
               (newFocusIndex cells VK_HOME this)) this.
Proof.
  intros Hf Hen. rewrite newFocusIndex_home, newFocusIndex_end.
  split; [ apply right_presses | apply left_presses ]; assumption.
Qed.

Lemma repeated_arrows_saturate_witness :
  let this := run [SetDayCount 31; SetMaxEnabledIndex 20; SetSelectedDayIndex 10] in
  let cells := match rendered_cells this with Some cs => cs | None => [] end in
  (newFocusIndex cells VK_END this = 19 /\
   newFocusIndex cells VK_HOME this = 0) /\
  fold_left exec (repeat (KeyDown (Some cells) VK_RIGHT) 12) this
    = with_focusIndex (Z.min (10 + 12) 19) this /\
  fold_left exec (repeat (KeyDown (Some cells) VK_LEFT) 12) this
    = with_focusIndex (Z.max (10 - 12) 0) this.
Proof.
  cbv zeta. split; [ split; reflexivity | ].
  refine (repeated_arrows_saturate
            (run [SetDayCount 31; SetMaxEnabledIndex 20; SetSelectedDayIndex 10])
            (match rendered_cells
                     (run [SetDayCount 31; SetMaxEnabledIndex 20;
                           SetSelectedDayIndex 10]) with
             | Some cs => cs
             | None => []
             end) 12 _ _).
  - vm_compute. split; [ discriminate | reflexivity ].
  - unfold in_enabled_range; cbn. lia.
Defined.

(* ------------------------------------------------------------------ *)
(** ** Listener registration *)

Section Listeners.

Variable ls : list (string * BoundFunction).
Variable n : nat.
Hypothesis Hwf : Forall (fun l => (identity (snd l) < n)%nat) ls.

(** A function object created now matches no registration made before. *)
Lemma fresh_matches_nothing (type : string) (m : method) (k : nat) :
  (n <= k)%nat ->
  forallb (fun l => negb (same_listener (type, mkBound m k) l)) ls = true.
Proof.
  intros Hk. apply forallb_forall. intros l Hl.
  rewrite Forall_forall in Hwf. specialize (Hwf l Hl).
  unfold same_listener; cbn.
  destruct (Nat.eqb_spec k (identity (snd l))); [ lia | ].
  rewrite andb_false_r. reflexivity.
Qed.

Lemma addEventListener_fresh (type : string) (m : method) (k a : nat) :
  (n <= k)%nat ->
  addEventListener type (mkBound m k) (mkTarget ls a)
    = mkTarget (ls ++ [(type, mkBound m k)]) a.
Proof.
  intros Hk. unfold addEventListener; cbn [listeners allocated].
  destruct (existsb _ ls) eqn:E; [ | reflexivity ].
  apply existsb_exists in E. destruct E as [l [Hl Hsame]].
  pose proof (fresh_matches_nothing type m k Hk) as Hall.
  rewrite forallb_forall in Hall. specialize (Hall l Hl).
  rewrite Hsame in Hall. discriminate.
Qed.

Lemma removeEventListener_fresh (type : string) (m : method) (k a : nat) :
  (n <= k)%nat ->
  removeEventListener type (mkBound m k) (mkTarget ls a) = mkTarget ls a.
Proof.
  intros Hk. unfold removeEventListener; cbn [listeners allocated].
  f_equal.
  pose proof (fresh_matches_nothing type m k Hk) as Hall.
  clear Hwf. induction ls as [|l rest IH]; [ reflexivity | ].
  cbn in Hall |- *. apply andb_true_iff in Hall. destruct Hall as [Hl Hrest].
  rewrite Hl, (IH Hrest). reflexivity.
Qed.

End Listeners.

Lemma firstUpdated_listeners (e : EventTarget) :
  well_formed e ->
  firstUpdated e =
    mkTarget
      (listeners e
         ++ [("focus"%string, mkBound forwardFocusToCell_method (allocated e));
             ("keydown"%string,
              mkBound handleKeyboardNavigation_method (S (allocated e)))])
      (S (S (allocated e))).
Proof.
  intros Hwf. destruct e as [ls a]. unfold well_formed in Hwf.
  unfold firstUpdated, bind_this; cbn [listeners allocated] in *.
  rewrite (addEventListener_fresh ls a Hwf) by lia.
  cbn [listeners allocated].
  rewrite (addEventListener_fresh _ (S a)).
  - rewrite <- app_assoc. reflexivity.
  - apply Forall_app. split.
    + eapply Forall_impl; [ | exact Hwf ]. cbn. intros l Hl. lia.
    + constructor; [ cbn; lia | constructor ].
  - lia.
Qed.

Lemma disconnectedCallback_listeners (e : EventTarget) :
  well_formed e ->
  disconnectedCallback e = mkTarget (listeners e) (S (S (allocated e))).
Proof.
  intros Hwf. destruct e as [ls a]. unfold well_formed in Hwf.
  unfold disconnectedCallback, bind_this; cbn [listeners allocated] in *.
  rewrite (removeEventListener_fresh ls a Hwf) by lia.
  cbn [listeners allocated].
  rewrite (removeEventListener_fresh ls a Hwf) by lia.
  reflexivity.
Qed.

(** [disconnectedCallback] releases nothing.  The functions it passes to
    [removeEventListener] are new objects made by [bind], so they match no
    registration: the listener list is left as it was, and after
    [firstUpdated] followed by [disconnectedCallback] a focus event still
    reaches [forwardFocusToCell] and a keydown still reaches
    [handleKeyboardNavigation]. *)
Theorem disconnectedCallback_removes_no_listener (e : EventTarget) :
  well_formed e ->
  listeners (disconnectedCallback e) = listeners e /\
  (let e' := disconnectedCallback (firstUpdated e) in
   listeners e' = listeners (firstUpdated e) /\
   delivered "focus" e' = delivered "focus" e ++ [forwardFocusToCell_method] /\
   delivered "keydown" e'
     = delivered "keydown" e ++ [handleKeyboardNavigation_method]).
Proof.
  intros Hwf; cbv zeta.
  assert (Hwf' : well_formed (firstUpdated e)).
  { rewrite firstUpdated_listeners by assumption.
    unfold well_formed in *; cbn [listeners allocated].
    apply Forall_app. split.
    - eapply Forall_impl; [ | exact Hwf ]. cbn. intros l Hl. lia.
    - repeat constructor; cbn; lia. }
  rewrite !disconnectedCallback_listeners by assumption.
  cbn [listeners]. split; [ reflexivity | split; [ reflexivity | ] ].
  rewrite firstUpdated_listeners by assumption.
  unfold delivered; cbn [listeners].
  rewrite !filter_app, !map_app. split; reflexivity.
Qed.

Lemma disconnectedCallback_removes_no_listener_witness :
  let e := mkTarget [] 0 in
  listeners (disconnectedCallback e) = listeners e /\
  (let e' := disconnectedCallback (firstUpdated e) in
   listeners e' = listeners (firstUpdated e) /\
   delivered "focus" e' = delivered "focus" e ++ [forwardFocusToCell_method] /\
   delivered "keydown" e'
     = delivered "keydown" e ++ [handleKeyboardNavigation_method]).
Proof.
  cbv zeta.
  apply (disconnectedCallback_removes_no_listener (mkTarget [] 0)).
  constructor.
Defined.

(* ------------------------------------------------------------------ *)
(** ** Cursor and DOM focus *)

Lemma dispatch_moves_no_focus (cells : NodeList) (keyCode : Z) (this : Grid) :
  filter is_cell_focus_change (trace (dispatch cells keyCode this)) = [].
Proof.
  rewrite dispatch_trace.
  destruct (is_activation keyCode); [ reflexivity | ].
  destruct (existsb _ _); reflexivity.
Qed.

(** What a keydown does to the DOM focus follows what it did to the
    cursor.  If [focusIndex] is unchanged, no cell is blurred or focused.
    If it changed and the handler completed, exactly the old cell was
    blurred and then the new one focused.  If it changed and the handler
    threw, the old cell was blurred and no cell was focused. *)
Theorem keydown_focus_transfer (this : Grid) (cells : NodeList) (keyCode : Z) :
  let r := handleKeyboardNavigation (Some cells) keyCode this in
  let old := _focusIndex this in
  let new := _focusIndex (final r) in
  filter is_cell_focus_change (trace r) =
  if new =? old then []
  else if thrown r then [Blur old]
  else [Blur old; Focus new].
Proof.
  cbv zeta. rewrite handleKeyboardNavigation_unfold; cbv zeta.
  pose proof (dispatch_moves_no_focus cells keyCode this) as Htr.
  destruct (Z.eqb_spec (newFocusIndex cells keyCode this) (_focusIndex this))
    as [E|E].
  - cbn [trace final]. rewrite Z.eqb_refl. exact Htr.
  - destruct (item cells (_focusIndex this)).
    + destruct (item cells (newFocusIndex cells keyCode this));
        cbn [trace final thrown result _focusIndex with_focusIndex];
        rewrite filter_app, Htr;
        destruct (Z.eqb_spec (newFocusIndex cells keyCode this)
                             (_focusIndex this)); [ contradiction | | contradiction | ];
        reflexivity.
    + cbn [trace final]. rewrite Z.eqb_refl. exact Htr.
Qed.

(* ------------------------------------------------------------------ *)
(** ** The focused cell *)







(** Whenever [render] returns, with [dayCount] and [selectedDayIndex + 1]
    below the largest array length 2^32, [dayCount] is not negative, the style
    fragment carries [gridOffset], and the grid has [dayCount] slots, or
    [selectedDayIndex + 1] slots when the selected index is past the last
    day: the write of the selected cell extends the array. *)
Theorem render_length (this : Grid) (t : TemplateResult) :
  render this = Some t ->
  Z.max (dayCount this) (selectedDayIndex this + 1) < 2 ^ 32 ->
  0 <= dayCount this /\
  additionnalStyle t = gridOffset this /\
  Z.of_nat (List.length (grid t))
    = Z.max (dayCount this) (selectedDayIndex this + 1).
Proof.
  intros Ht _.
  destruct (render_grid_shape this t Ht) as [Hn Hgrid].
  split; [ exact Hn | split ].
  - unfold render in Ht. destruct (dayCount this <? 0); [ discriminate | ].
    injection Ht as <-. reflexivity.
  - rewrite Hgrid.
    destruct (Z.leb_spec (dayCount this) (selectedDayIndex this)).
    + rewrite !length_app, !length_map, repeat_length. unfold keys.
      rewrite length_map, length_seq. cbn [List.length]. lia.
    + rewrite !length_map. unfold keys.
      rewrite length_map, length_seq. lia.
Qed.

Lemma render_length_witness :
  let this := run [SetDayCount 3; SetGridOffset 4; SetSelectedDayIndex 5] in
  let t := match render this with Some t => t | None => mkTemplate 0 [] end in
  0 <= dayCount this /\
  additionnalStyle t = 4 /\
  Z.of_nat (List.length (grid t)) = Z.max 3 6.
Proof.
  cbv zeta.
  refine (render_length
            (run [SetDayCount 3; SetGridOffset 4; SetSelectedDayIndex 5])
            (match render (run [SetDayCount 3; SetGridOffset 4;
                                SetSelectedDayIndex 5]) with
             | Some t => t
             | None => mkTemplate 0 []
             end) _ _).
  - reflexivity.
  - reflexivity.
Defined.
